(** * Universal Code Optimizer (src/CodeOptimizer.py)

    Shallow embedding of the Streamlit script: language detection (lines
    119-220) and one execution of the script against the session state
    (lines 35-45, 93-117, 243-359).  A Python [str] is held as its UTF-8
    bytes; [str.strip()] removes all Unicode whitespace, [str.lower()] is
    modelled on ASCII letters only.  An uploaded file is taken as decoded: a file that is not
    UTF-8 makes line 95 raise before any widget below it, and such runs are
    not modelled.  The external collaborators (the pygments lexer guesser and
    the LLM chain) are inputs of a run. *)

From Stdlib Require Import Strings.String Strings.Ascii Lists.List Bool.Bool Arith.Arith Arith.PeanoNat Lia.
Import ListNotations.
Open Scope string_scope.
Open Scope nat_scope.

(** ** Python string helpers *)

Definition ascii_lower (c : ascii) : ascii :=
  let n := nat_of_ascii c in
  if (65 <=? n) && (n <=? 90) then ascii_of_nat (n + 32) else c.

(** [str.lower] on ASCII text. *)
Fixpoint py_lower (s : string) : string :=
  match s with
  | EmptyString => EmptyString
  | String c s' => String (ascii_lower c) (py_lower s')
  end.

(** ASCII characters for which [str.isspace] holds. *)
Definition is_py_space (c : ascii) : bool :=
  let n := nat_of_ascii c in
  ((9 <=? n) && (n <=? 13)) || ((28 <=? n) && (n <=? 32)).

Definition byte_is (c : ascii) (n : nat) : bool := Nat.eqb (nat_of_ascii c) n.

(** Length in bytes of the whitespace character (per [str.isspace]) that
    starts the UTF-8 byte list [l], or 0 when [l] does not start with one:
    the ASCII ones, U+0085, U+00A0, U+1680, U+2000-U+200A, U+2028, U+2029,
    U+202F, U+205F and U+3000. *)
Definition space_len (l : list ascii) : nat :=
  match l with
  | [] => 0
  | a :: r =>
      if is_py_space a then 1 else
      match r with
      | [] => 0
      | b :: r' =>
          if byte_is a 194 && (byte_is b 133 || byte_is b 160) then 2 else
          match r' with
          | [] => 0
          | c :: _ =>
              if (byte_is a 225 && byte_is b 154 && byte_is c 128)
                 || (byte_is a 226 && byte_is b 128
                     && (((128 <=? nat_of_ascii c) && (nat_of_ascii c <=? 138))
                         || byte_is c 168 || byte_is c 169 || byte_is c 175))
                 || (byte_is a 226 && byte_is b 129 && byte_is c 159)
                 || (byte_is a 227 && byte_is b 128 && byte_is c 128)
              then 3 else 0
          end
      end
  end.

(** Drop leading whitespace characters ([fuel] bounds their number). *)
Fixpoint lstrip_bytes (fuel : nat) (l : list ascii) : list ascii :=
  match fuel with
  | O => l
  | S fuel' =>
      match space_len l with
      | O => l
      | k => lstrip_bytes fuel' (skipn k l)
      end
  end.

(** Length in bytes of the whitespace character that ends the byte list
    whose reverse is [r], or 0. *)
Definition space_len_end (r : list ascii) : nat :=
  if space_len (rev (firstn 1 r)) =? 1 then 1
  else if space_len (rev (firstn 2 r)) =? 2 then 2
  else if space_len (rev (firstn 3 r)) =? 3 then 3
  else 0.

(** Drop trailing whitespace characters from the reversed byte list [r]. *)
Fixpoint rstrip_rev (fuel : nat) (r : list ascii) : list ascii :=
  match fuel with
  | O => r
  | S fuel' =>
      match space_len_end r with
      | O => r
      | k => rstrip_rev fuel' (skipn k r)
      end
  end.

Definition lstrip (s : string) : string :=
  let l := list_ascii_of_string s in string_of_list_ascii (lstrip_bytes (length l) l).

Definition rstrip (s : string) : string :=
  let l := list_ascii_of_string s in string_of_list_ascii (rev (rstrip_rev (length l) (rev l))).

(** [str.strip()] *)
Definition py_strip (s : string) : string := rstrip (lstrip s).

Example py_strip_unicode :
  py_strip (String (ascii_of_nat 194) (String (ascii_of_nat 160) " x" ++
            String (ascii_of_nat 227) (String (ascii_of_nat 128) (String (ascii_of_nat 128) ""))))
  = "x".
Proof. vm_compute. reflexivity. Qed.

Example py_strip_nbsp_only :
  py_strip (String (ascii_of_nat 194) (String (ascii_of_nat 160) (String (ascii_of_nat 9) ""))) = "".
Proof. vm_compute. reflexivity. Qed.

(** Truthiness of a Python string. *)
Definition str_truthy (s : string) : bool := negb (String.eqb s "").

(** [re.sub(r'[^a-z0-9]', '', s)] *)
Fixpoint strip_non_alnum (s : string) : string :=
  match s with
  | EmptyString => EmptyString
  | String c s' =>
      let n := nat_of_ascii c in
      if ((97 <=? n) && (n <=? 122)) || ((48 <=? n) && (n <=? 57))
      then String c (strip_non_alnum s')
      else strip_non_alnum s'
  end.

(** Index of the last occurrence of [c] in [s] ([str.rfind], [None] for -1). *)
Fixpoint rfind (c : ascii) (s : string) : option nat :=
  match s with
  | EmptyString => None
  | String d s' =>
      match rfind c s' with
      | Some k => Some (S k)
      | None => if Ascii.eqb c d then Some 0 else None
      end
  end.

(** [posixpath.splitext] (genericpath._splitext with sep '/', extsep '.'):
    leading dots of the base name do not start an extension. *)
Definition splitext (p : string) : string * string :=
  match rfind "."%char p with
  | None => (p, "")
  | Some dotIndex =>
      let filenameIndex := match rfind "/"%char p with
                           | None => 0
                           | Some sepIndex => S sepIndex
                           end in
      if filenameIndex <=? dotIndex then
        if existsb (fun ch => negb (Ascii.eqb ch "."%char))
             (list_ascii_of_string (substring filenameIndex (dotIndex - filenameIndex) p))
        then (substring 0 dotIndex p, substring dotIndex (String.length p - dotIndex) p)
        else (p, "")
      else (p, "")
  end.

(** [dict.get] on a dict literal, kept as an association list in source order. *)
Fixpoint dict_get (k : string) (t : list (string * string)) : option string :=
  match t with
  | [] => None
  | (k', v) :: t' => if String.eqb k k' then Some v else dict_get k t'
  end.

(** Truthiness of [detected_language] ([None] or a string). *)
Definition truthy (o : option string) : bool :=
  match o with
  | Some s => str_truthy s
  | None => false
  end.

(** ** Tables *)

(** [EXTENSION_TO_LANG], lines 122-150. *)
Definition EXTENSION_TO_LANG : list (string * string) :=
  [(".py", "python"); (".js", "javascript"); (".java", "java"); (".c", "c");
   (".cpp", "cpp"); (".cc", "cpp"); (".cxx", "cpp"); (".cs", "csharp");
   (".go", "go"); (".rb", "ruby"); (".php", "php"); (".rs", "rust");
   (".ts", "typescript"); (".kt", "kotlin"); (".swift", "swift");
   (".scala", "scala"); (".pl", "perl"); (".r", "r"); (".sh", "bash");
   (".html", "html"); (".css", "css"); (".sql", "sql"); (".json", "json");
   (".xml", "xml"); (".yaml", "yaml"); (".yml", "yaml"); (".md", "markdown")].

(** [pygments_to_lang], lines 164-204. *)
Definition pygments_to_lang : list (string * string) :=
  [("python", "python"); ("py", "python"); ("python3", "python");
   ("javascript", "javascript"); ("js", "javascript"); ("java", "java");
   ("c", "c"); ("c++", "cpp"); ("cpp", "cpp"); ("c#", "csharp");
   ("csharp", "csharp"); ("c-sharp", "csharp"); ("c# (c-sharp)", "csharp");
   ("go", "go"); ("golang", "go"); ("ruby", "ruby"); ("rb", "ruby");
   ("php", "php"); ("rust", "rust"); ("typescript", "typescript");
   ("ts", "typescript"); ("kotlin", "kotlin"); ("swift", "swift");
   ("scala", "scala"); ("perl", "perl"); ("r", "r"); ("bash", "bash");
   ("sh", "bash"); ("shell", "bash"); ("html", "html"); ("xml+html", "html");
   ("css", "css"); ("sql", "sql"); ("json", "json"); ("xml", "xml");
   ("yaml", "yaml"); ("yml", "yaml"); ("markdown", "markdown"); ("md", "markdown")].

(** ** Language detection, lines 119-220 *)

(** Outcome of [guess_lexer(messy_code)]: the lexer's [name], or the
    [ClassNotFound] exception. *)
Inductive guess_result :=
| Guessed (lexer_name : string)
| ClassNotFound.

(** [guess_lexer]: [None] when pygments could not be imported (line 13). *)
Definition guesser := option (string -> guess_result).

(** Lines 151-157: detection by the uploaded file's extension. *)
Definition ext_language (uploaded_name : option string) : option string :=
  match uploaded_name with
  | Some name =>
      if str_truthy name
      then dict_get (py_lower (snd (splitext name))) EXTENSION_TO_LANG
      else None
  | None => None
  end.

(** Lines 162-218: from the lexer's name to [detected_language]. *)
Definition normalize_lexer_name (lexer_name : string) : option string :=
  let pygments_name := py_lower lexer_name in
  let d := dict_get pygments_name pygments_to_lang in
  let d := if truthy d then d
           else dict_get (py_lower pygments_name) pygments_to_lang in
  let d := if truthy d then d
           else
             let simple_name := strip_non_alnum (py_lower pygments_name) in
             match find (fun kv => String.eqb (strip_non_alnum (py_lower (fst kv))) simple_name)
                        pygments_to_lang with
             | Some (_, val) => Some val
             | None => d
             end in
  if truthy d then d else Some pygments_name.

(** Lines 120-220: [detected_language]. *)
Definition resolve_language (uploaded_name : option string) (messy_code : string)
    (guess_lexer : guesser) : option string :=
  let detected_language := ext_language uploaded_name in
  if negb (truthy detected_language) && str_truthy messy_code then
    match guess_lexer with
    | Some guess =>
        match guess messy_code with
        | Guessed name => normalize_lexer_name name
        | ClassNotFound => None
        end
    | None => detected_language
    end
  else detected_language.

(** ** Session state and one execution of the script *)

(** A history item, the dict appended at lines 293-297. *)
Record entry := mk_entry {
  messy : string;
  cleaned : string;
  language : option string
}.

(** [st.session_state]: keys [history], [clear_triggered],
    [text_input_value] and [show_explanation_only]. *)
Record session := mk_session {
  history : list entry;
  clear_triggered : bool;
  text_input_value : string;
  show_explanation_only : bool
}.

(** The session state once the initialisation lines (36-45, 284-285) ran. *)
Definition init_session : session := mk_session [] false "" false.

Definition set_history (s : session) (h : list entry) : session :=
  mk_session h (clear_triggered s) (text_input_value s) (show_explanation_only s).
Definition set_clear_triggered (s : session) (b : bool) : session :=
  mk_session (history s) b (text_input_value s) (show_explanation_only s).
Definition set_text_input_value (s : session) (t : string) : session :=
  mk_session (history s) (clear_triggered s) t (show_explanation_only s).
Definition set_show_explanation_only (s : session) (b : bool) : session :=
  mk_session (history s) (clear_triggered s) (text_input_value s) b.

(** An uploaded file: [uploaded_file.name] and its content as decoded by
    [.decode("utf-8")] at line 95 (a file that does not decode is outside
    the model, see the header). *)
Record uploaded := mk_uploaded {
  file_name : string;
  file_content : string
}.

(** The button clicked in this interaction ([st.button] is true for one
    run only; Streamlit handles one click per run). *)
Inductive button :=
| NoButton | OptimizeBtn | ExplainBtn | RevertBtn | ClearBtn | ExplainOptimizedBtn.

Definition button_eqb (a b : button) : bool :=
  match a, b with
  | NoButton, NoButton | OptimizeBtn, OptimizeBtn | ExplainBtn, ExplainBtn
  | RevertBtn, RevertBtn | ClearBtn, ClearBtn
  | ExplainOptimizedBtn, ExplainOptimizedBtn => true
  | _, _ => false
  end.

(** Result of [chain.invoke] / [explain_chain.invoke], the text already
    extracted from the returned dict (lines 291, 305, 357). *)
Inductive llm_result :=
| Completion (text : string)
| ServiceError.

(** What one run of the script receives from the outside world. *)
Record input := mk_input {
  in_upload : option uploaded;          (* st.file_uploader *)
  in_edit : option string;              (* the user's edit of the text area, if any *)
  in_button : button;
  in_guess : guesser;                   (* pygments guess_lexer *)
  in_complete : string -> llm_result    (* the LLM, applied to the prompt text *)
}.

Inductive message :=
| Warning (text : string)
| Success (text : string).

(** How the run ended: normally, [st.stop()], [st.rerun()], or an
    exception escaping the script. *)
Inductive outcome := Finished | Stopped | Rerun | Failed.

Definition nl : string := String (ascii_of_nat 10) EmptyString.

(** [str(...)] of [detected_language] as a template value. *)
Definition py_str_lang (l : option string) : string :=
  match l with Some s => s | None => "None" end.

(** The [prompt] template, lines 223-228. *)
Definition optimize_prompt (code : string) (lang : option string) : string :=
  "You are a helpful code formatter and explainer. "
  ++ "Given the following messy or unordered " ++ py_str_lang lang
  ++ " code, return a clean, well-formatted, and readable version with helpful comments explaining the code. "
  ++ "Do not add explanations outside the code, just return the cleaned and commented code." ++ nl ++ nl
  ++ "Messy code:" ++ nl ++ code ++ nl ++ nl ++ "Cleaned and commented code:".

(** The [explain_prompt] template, lines 232-240. *)
Definition explain_prompt (code : string) (lang : option string) : string :=
  "You are a helpful programming assistant. "
  ++ "Explain what the following " ++ py_str_lang lang
  ++ " code does, step by step, in a visually structured way. "
  ++ "For each important code line or block, start with a callout (➤) and show the code using inline code formatting (single backticks). "
  ++ "Then, use bullet points to explain what that line or block does. "
  ++ "Highlight important terms or concepts in bold. "
  ++ "Use clear, readable markdown, and make the explanation easy to scan, like a professional code review or tutorial." ++ nl ++ nl
  ++ "Code:" ++ nl ++ code ++ nl ++ nl ++ "Explanation:".

Definition msg_no_previous : string := "⚠️ No previous version to revert to.".
Definition msg_reverted : string := "✅ Reverted to previous version.".

(** The script's locals and what it has rendered so far. *)
Record frame := mk_frame {
  f_session : session;
  f_area_value : string;            (* the [value] argument of st.text_area *)
  f_messy_code : string;
  f_optimized : option string;      (* [None]: the name is unbound *)
  f_detected_language : option string;
  f_messages : list message;
  f_calls : list string;            (* prompts sent to the LLM, in order *)
  f_explanation : option string;
  f_comparison : option entry;      (* the side-by-side view, lines 325-334 *)
  f_download : option string        (* the download file name, line 345 *)
}.

Definition with_session (f : frame) (s : session) : frame :=
  mk_frame s (f_area_value f) (f_messy_code f) (f_optimized f) (f_detected_language f)
    (f_messages f) (f_calls f) (f_explanation f) (f_comparison f) (f_download f).
Definition with_view (f : frame) (m : string) (o : option string) (l : option string) : frame :=
  mk_frame (f_session f) (f_area_value f) m o l
    (f_messages f) (f_calls f) (f_explanation f) (f_comparison f) (f_download f).
Definition add_message (f : frame) (m : message) : frame :=
  mk_frame (f_session f) (f_area_value f) (f_messy_code f) (f_optimized f) (f_detected_language f)
    (f_messages f ++ [m]) (f_calls f) (f_explanation f) (f_comparison f) (f_download f).
Definition add_call (f : frame) (p : string) : frame :=
  mk_frame (f_session f) (f_area_value f) (f_messy_code f) (f_optimized f) (f_detected_language f)
    (f_messages f) (f_calls f ++ [p]) (f_explanation f) (f_comparison f) (f_download f).
Definition with_explanation (f : frame) (t : string) : frame :=
  mk_frame (f_session f) (f_area_value f) (f_messy_code f) (f_optimized f) (f_detected_language f)
    (f_messages f) (f_calls f) (Some t) (f_comparison f) (f_download f).
Definition with_comparison (f : frame) (e : entry) (d : string) : frame :=
  mk_frame (f_session f) (f_area_value f) (f_messy_code f) (f_optimized f) (f_detected_language f)
    (f_messages f) (f_calls f) (f_explanation f) (Some e) (Some d).

(** A statement of the script either falls through or ends the run. *)
Inductive step :=
| Continue (f : frame)
| Exit (f : frame) (o : outcome).

Definition step_bind (r : step) (k : frame -> step) : step :=
  match r with
  | Continue f => k f
  | Exit f o => Exit f o
  end.

Notation "r >>= k" := (step_bind r k) (at level 58, left associativity).

(** [history[-1]] *)
Definition py_last (h : list entry) : option entry :=
  match rev h with
  | e :: _ => Some e
  | [] => None
  end.

(** The [on_change] callback of the text area (line 116), run by
    Streamlit before the script when the user edited the widget. *)
Definition on_change (s : session) (edit : option string) : session :=
  match edit with
  | Some t => set_text_input_value s t
  | None => s
  end.

(** Lines 94-111: the [value] argument passed to st.text_area. *)
Definition area_value (s : session) (up : option uploaded) : string :=
  let uploaded_code := match up with Some f => file_content f | None => "" end in
  if clear_triggered s then ""
  else match up with
       | Some _ => if str_truthy uploaded_code then uploaded_code else text_input_value s
       | None => text_input_value s
       end.

(** The text area widget returns the user's edit of this run, else its
    [value] argument.  The widget state that Streamlit keeps between runs
    under the key [main_code_input] is not modelled. *)
Definition text_area (value : string) (edit : option string) : string :=
  match edit with
  | Some t => t
  | None => value
  end.

(** Lines 93-220: the locals before the action buttons. *)
Definition start_frame (s0 : session) (i : input) : frame :=
  let s := on_change s0 (in_edit i) in
  let value := area_value s (in_upload i) in
  let messy_code := text_area value (in_edit i) in
  let detected_language :=
    resolve_language (option_map file_name (in_upload i)) messy_code (in_guess i) in
  mk_frame s value messy_code None detected_language [] [] None None None.

(** Lines 256-257. *)
Definition stage_revert_warning (btn : button) (f : frame) : step :=
  if button_eqb btn RevertBtn && (length (history (f_session f)) <=? 1)
  then Continue (add_message f (Warning msg_no_previous))
  else Continue f.

(** Lines 260-266. *)
Definition stage_revert (btn : button) (f : frame) : step :=
  if button_eqb btn RevertBtn && (1 <? length (history (f_session f))) then
    let h := removelast (history (f_session f)) in
    let f := with_session f (set_history (f_session f) h) in
    match py_last h with
    | Some prev =>
        Continue (add_message
                    (with_view f (messy prev) (Some (cleaned prev)) (language prev))
                    (Success msg_reverted))
    | None => Exit f Failed
    end
  else Continue f.

(** Lines 269-277. *)
Definition stage_clear (btn : button) (f : frame) : step :=
  if button_eqb btn ClearBtn then
    let s := f_session f in
    let s := set_clear_triggered (set_text_input_value (set_history s []) "") true in
    Exit (with_session f s) Rerun
  else Continue f.

(** Lines 280-281. *)
Definition stage_reset_clear (f : frame) : step :=
  if clear_triggered (f_session f)
  then Continue (with_session f (set_clear_triggered (f_session f) false))
  else Continue f.

(** Lines 288-298. *)
Definition stage_optimize (btn : button) (complete : string -> llm_result) (f : frame) : step :=
  if button_eqb btn OptimizeBtn && str_truthy (py_strip (f_messy_code f)) then
    let p := optimize_prompt (f_messy_code f) (f_detected_language f) in
    let f := add_call f p in
    match complete p with
    | Completion optimized =>
        let f := with_view f (f_messy_code f) (Some optimized) (f_detected_language f) in
        let s := f_session f in
        let s := set_history s (history s ++
                   [mk_entry (f_messy_code f) optimized (f_detected_language f)]) in
        Continue (with_session f (set_show_explanation_only s false))
    | ServiceError => Exit f Failed
    end
  else Continue f.

(** Lines 301-311. *)
Definition stage_explain (btn : button) (complete : string -> llm_result) (f : frame) : step :=
  if button_eqb btn ExplainBtn && str_truthy (py_strip (f_messy_code f)) then
    let f := with_session f (set_show_explanation_only (f_session f) true) in
    let p := explain_prompt (f_messy_code f) (f_detected_language f) in
    let f := add_call f p in
    match complete p with
    | Completion explanation_text =>
        let f := with_explanation f explanation_text in
        Exit (with_session f (set_show_explanation_only (f_session f) false)) Stopped
    | ServiceError => Exit f Failed
    end
  else Continue f.

(** Lines 314-359.  [messy = last["messy"]] is a fresh local: it does not
    rebind [messy_code]. *)
Definition stage_comparison (btn : button) (complete : string -> llm_result) (f : frame) : step :=
  let s := f_session f in
  match py_last (history s) with
  | Some last =>
      if str_truthy (py_strip (cleaned last)) && str_truthy (py_strip (messy last))
         && negb (show_explanation_only s) then
        let f := with_view f (f_messy_code f) (Some (cleaned last)) (language last) in
        let f := with_comparison f last ("optimized_code." ++ py_str_lang (language last)) in
        if button_eqb btn ExplainOptimizedBtn then
          let p := explain_prompt (cleaned last) (language last) in
          let f := add_call f p in
          match complete p with
          | Completion explanation_text => Continue (with_explanation f explanation_text)
          | ServiceError => Exit f Failed
          end
        else Continue f
      else Continue f
  | None => Continue f
  end.

(** What a run shows, and how it ended. *)
Record output := mk_output {
  o_area_value : string;
  o_messages : list message;
  o_calls : list string;
  o_explanation : option string;
  o_comparison : option entry;
  o_download : option string;
  o_view : string * option string * option string;  (* messy_code, optimized, detected_language *)
  o_outcome : outcome
}.

Definition finish (f : frame) (o : outcome) : session * output :=
  (f_session f,
   mk_output (f_area_value f) (f_messages f) (f_calls f) (f_explanation f)
     (f_comparison f) (f_download f)
     (f_messy_code f, f_optimized f, f_detected_language f) o).

(** One execution of the script. *)
Definition run (s : session) (i : input) : session * output :=
  let btn := in_button i in
  let r := Continue (start_frame s i)
           >>= stage_revert_warning btn
           >>= stage_revert btn
           >>= stage_clear btn
           >>= stage_reset_clear
           >>= stage_optimize btn (in_complete i)
           >>= stage_explain btn (in_complete i)
           >>= stage_comparison btn (in_complete i) in
  match r with
  | Continue f => finish f Finished
  | Exit f o => finish f o
  end.

(** The run Streamlit starts after [st.rerun()]: same upload and
    collaborators, no edit, no click. *)
Definition rerun_input (i : input) : input :=
  mk_input (in_upload i) None NoButton (in_guess i) (in_complete i).

(** One user interaction: a run, followed by the rerun it requests. *)
Definition event (s : session) (i : input) : session * list output :=
  let '(s1, o1) := run s i in
  match o_outcome o1 with
  | Rerun => let '(s2, o2) := run s1 (rerun_input i) in (s2, [o1; o2])
  | _ => (s1, [o1])
  end.

Inductive reachable : session -> Prop :=
| reach_init : reachable init_session
| reach_event (s : session) (i : input) : reachable s -> reachable (fst (event s i)).

Example resolve_py_js :
  resolve_language (Some "script.py") "console.log(1);" (Some (fun _ => Guessed "JavaScript"))
  = Some "python".
Proof. reflexivity. Qed.

Example resolve_cpp :
  resolve_language None "int main(){}" (Some (fun _ => Guessed "C++")) = Some "cpp".
Proof. reflexivity. Qed.

Example splitext_dotfile : splitext ".py" = (".py", "").
Proof. reflexivity. Qed.

Example splitext_path : splitext "a/b.c.PY" = ("a/b.c", ".PY").
Proof. reflexivity. Qed.

Definition py_input (code : string) (btn : button) (answer : string) : input :=
  mk_input None (Some code) btn (Some (fun _ => Guessed "Python")) (fun _ => Completion answer).

Example scenario_optimize_twice_revert :
  let s1 := fst (event init_session (py_input "x=1" OptimizeBtn "A")) in
  let s2 := fst (event s1 (py_input "x =  2" OptimizeBtn "B")) in
  let '(s3, outs) := event s2 (py_input "x =  2" RevertBtn "C") in
  length (history s3) = 1 /\
  map o_view outs = [("x=1", Some "A", Some "python")].
Proof. vm_compute. split; reflexivity. Qed.

Example scenario_revert_empty :
  let '(s1, outs) := event init_session (py_input "" RevertBtn "C") in
  history s1 = [] /\ map o_messages outs = [[Warning msg_no_previous]].
Proof. vm_compute. split; reflexivity. Qed.

(** ** Stage lemmas *)

Lemma dict_get_In (k v : string) (t : list (string * string)) :
  dict_get k t = Some v -> In (k, v) t.
Proof.
  induction t as [|[k' v'] t IH]; simpl; [discriminate|].
  destruct (String.eqb_spec k k') as [->|_]; intros H.
  - injection H as <-. left. reflexivity.
  - right. apply IH, H.
Qed.

Lemma EXTENSION_TO_LANG_values (k v : string) :
  In (k, v) EXTENSION_TO_LANG -> str_truthy v = true.
Proof.
  intros H. assert (Hall : forallb (fun kv => str_truthy (snd kv)) EXTENSION_TO_LANG = true)
    by reflexivity.
  rewrite forallb_forall in Hall. apply (Hall (k, v) H).
Qed.

Lemma pygments_to_lang_values (k v : string) :
  In (k, v) pygments_to_lang -> str_truthy v = true.
Proof.
  intros H. assert (Hall : forallb (fun kv => str_truthy (snd kv)) pygments_to_lang = true)
    by reflexivity.
  rewrite forallb_forall in Hall. apply (Hall (k, v) H).
Qed.

Lemma stage_revert_warning_other (btn : button) (f : frame) :
  btn <> RevertBtn -> stage_revert_warning btn f = Continue f.
Proof. intros H. unfold stage_revert_warning. destruct btn; try reflexivity; congruence. Qed.

Lemma stage_revert_other (btn : button) (f : frame) :
  btn <> RevertBtn -> stage_revert btn f = Continue f.
Proof. intros H. unfold stage_revert. destruct btn; try reflexivity; congruence. Qed.

Lemma stage_clear_other (btn : button) (f : frame) :
  btn <> ClearBtn -> stage_clear btn f = Continue f.
Proof. intros H. unfold stage_clear. destruct btn; try reflexivity; congruence. Qed.

Lemma stage_optimize_other (btn : button) c (f : frame) :
  btn <> OptimizeBtn -> stage_optimize btn c f = Continue f.
Proof. intros H. unfold stage_optimize. destruct btn; try reflexivity; congruence. Qed.

Lemma stage_explain_other (btn : button) c (f : frame) :
  btn <> ExplainBtn -> stage_explain btn c f = Continue f.
Proof. intros H. unfold stage_explain. destruct btn; try reflexivity; congruence. Qed.

Lemma stage_reset_clear_session (f : frame) :
  stage_reset_clear f = Continue (with_session f (set_clear_triggered (f_session f) false)).
Proof.
  unfold stage_reset_clear. destruct (clear_triggered (f_session f)) eqn:E; [reflexivity|].
  destruct f as [[h ct t x] ? ? ? ? ? ? ? ? ?]. simpl in *. subst ct. reflexivity.
Qed.

(** Unless "Explain Optimized Code" was clicked, the comparison section
    neither changes the session nor calls the LLM. *)
Lemma stage_comparison_other (btn : button) c (f : frame) :
  btn <> ExplainOptimizedBtn ->
  exists f', stage_comparison btn c f = Continue f' /\
             f_session f' = f_session f /\ f_calls f' = f_calls f /\
             f_messages f' = f_messages f /\ f_area_value f' = f_area_value f.
Proof.
  intros H. unfold stage_comparison.
  destruct (py_last (history (f_session f))) as [last|]; [|eexists; eauto].
  destruct (_ && _ && _); [|eexists; eauto].
  replace (button_eqb btn ExplainOptimizedBtn) with false by (destruct btn; simpl; congruence).
  eexists; repeat split; reflexivity.
Qed.

(** Close a run whose last stage is the comparison section without a click
    on "Explain Optimized Code". *)
Ltac comparison_tail H :=
  match type of H with
  | context [stage_comparison ?b ?c ?f] =>
      let f' := fresh "f'" in let Hf := fresh "Hf" in let Hs := fresh "Hs" in
      destruct (stage_comparison_other b c f ltac:(discriminate)) as [f' [Hf [Hs _]]];
      rewrite Hf in H; unfold finish in H; injection H as <- _; rewrite Hs;
      cbn [f_session with_session with_view add_call set_history set_show_explanation_only
           set_clear_triggered history]
  end.

Lemma str_truthy_false (s : string) : str_truthy s = false -> s = "".
Proof. unfold str_truthy. destruct (String.eqb_spec s ""); simpl; congruence. Qed.

Lemma start_frame_history (s : session) (i : input) :
  history (f_session (start_frame s i)) = history s.
Proof. unfold start_frame, on_change. destruct (in_edit i); reflexivity. Qed.


(** A successful click on "Optimize Code" with a non-blank buffer appends
    exactly one entry. *)
Lemma optimize_run (s s' : session) (i : input) (o : output) :
  in_button i = OptimizeBtn ->
  str_truthy (py_strip (f_messy_code (start_frame s i))) = true ->
  run s i = (s', o) -> o_outcome o <> Failed ->
  exists r,
    in_complete i (optimize_prompt (f_messy_code (start_frame s i))
                     (f_detected_language (start_frame s i))) = Completion r /\
    history s' = (history s ++ [mk_entry (f_messy_code (start_frame s i)) r
                                 (f_detected_language (start_frame s i))])%list.
Proof.
  intros Hb Hc Hrun Hok. unfold run in Hrun. rewrite Hb in Hrun.
  rewrite <- (start_frame_history s i).
  set (f0 := start_frame s i) in *. clearbody f0.
  cbn [step_bind] in Hrun.
  rewrite stage_revert_warning_other in Hrun by discriminate. cbn [step_bind] in Hrun.
  rewrite stage_revert_other in Hrun by discriminate. cbn [step_bind] in Hrun.
  rewrite stage_clear_other in Hrun by discriminate. cbn [step_bind] in Hrun.
  rewrite stage_reset_clear_session in Hrun. cbn [step_bind] in Hrun.
  unfold stage_optimize in Hrun. cbn [button_eqb andb f_messy_code with_session] in Hrun.
  rewrite Hc in Hrun. cbn [andb f_detected_language with_session] in Hrun.
  destruct (in_complete i (optimize_prompt (f_messy_code f0) (f_detected_language f0)))
    as [r|] eqn:Ec.
  - exists r. split; [reflexivity|].
    cbn [step_bind] in Hrun.
    rewrite stage_explain_other in Hrun by discriminate. cbn [step_bind] in Hrun.
    comparison_tail Hrun.
    reflexivity.
  - cbn [step_bind] in Hrun. unfold finish in Hrun. injection Hrun as _ <-.
    exfalso. apply Hok. reflexivity.
Qed.

(** ** Runs as a pipeline of stages *)

Definition step_frame (r : step) : frame :=
  match r with
  | Continue f => f
  | Exit f _ => f
  end.

Lemma run_result_fst (r : step) :
  fst (match r with Continue f => finish f Finished | Exit f o => finish f o end)
  = f_session (step_frame r).
Proof. destruct r; reflexivity. Qed.

Lemma step_bind_pres (P : session -> Prop) (r : step) (k : frame -> step) :
  P (f_session (step_frame r)) ->
  (forall f, P (f_session f) -> P (f_session (step_frame (k f)))) ->
  P (f_session (step_frame (r >>= k))).
Proof. destruct r; simpl; auto. Qed.

Lemma py_last_None (h : list entry) : py_last h = None -> h = [].
Proof.
  unfold py_last. destruct (rev h) eqn:E; [|discriminate].
  intros _. rewrite <- (rev_involutive h), E. reflexivity.
Qed.

Lemma removelast_length (h : list entry) : length (removelast h) = length h - 1.
Proof.
  induction h as [|a [|b t] IH]; [reflexivity|reflexivity|].
  change (removelast (a :: b :: t)) with (a :: removelast (b :: t)).
  cbn [length] in *. rewrite IH. lia.
Qed.

Lemma py_last_removelast (h : list entry) :
  1 < length h -> exists e, py_last (removelast h) = Some e.
Proof.
  intros H. destruct (py_last (removelast h)) as [e|] eqn:E; [eauto|].
  apply py_last_None in E. pose proof (removelast_length h) as L.
  rewrite E in L. simpl in L. lia.
Qed.

Lemma stage_revert_warning_cont (btn : button) (f : frame) :
  exists f', stage_revert_warning btn f = Continue f' /\ f_session f' = f_session f.
Proof. unfold stage_revert_warning. destruct (_ && _); eexists; split; reflexivity. Qed.

Lemma stage_revert_cont (btn : button) (f : frame) :
  exists f', stage_revert btn f = Continue f'.
Proof.
  unfold stage_revert. destruct (button_eqb btn RevertBtn) eqn:Eb; [|eexists; reflexivity].
  destruct (1 <? length (history (f_session f))) eqn:El; [|eexists; reflexivity].
  apply Nat.ltb_lt in El. destruct (py_last_removelast _ El) as [e He].
  cbn [andb]. rewrite He. eexists; reflexivity.
Qed.

Definition flag_down (s : session) : Prop := clear_triggered s = false.

Ltac stage_keeps :=
  intros f H; repeat (match goal with
                      | |- context [if ?b then _ else _] => destruct b
                      | |- context [match ?x with _ => _ end] => destruct x
                      end; cbn in * ); unfold flag_down in *; cbn in *; auto.

Lemma stage_optimize_keeps btn c :
  forall f, flag_down (f_session f) -> flag_down (f_session (step_frame (stage_optimize btn c f))).
Proof. unfold stage_optimize. stage_keeps. Qed.

Lemma stage_explain_keeps btn c :
  forall f, flag_down (f_session f) -> flag_down (f_session (step_frame (stage_explain btn c f))).
Proof. unfold stage_explain. stage_keeps. Qed.

Lemma stage_comparison_keeps btn c :
  forall f, flag_down (f_session f) -> flag_down (f_session (step_frame (stage_comparison btn c f))).
Proof. unfold stage_comparison. stage_keeps. Qed.

(** Every run without a click on "Clear All" ends with [clear_triggered]
    false (lines 280-281). *)
Lemma run_flag_down (s : session) (i : input) :
  in_button i <> ClearBtn -> flag_down (fst (run s i)).
Proof.
  intros Hb. unfold run. rewrite run_result_fst.
  apply step_bind_pres; [|apply stage_comparison_keeps].
  apply step_bind_pres; [|apply stage_explain_keeps].
  apply step_bind_pres; [|apply stage_optimize_keeps].
  cbn [step_bind].
  destruct (stage_revert_warning_cont (in_button i) (start_frame s i)) as [f1 [-> _]].
  cbn [step_bind]. destruct (stage_revert_cont (in_button i) f1) as [f2 ->].
  cbn [step_bind]. rewrite stage_clear_other by exact Hb. cbn [step_bind].
  rewrite stage_reset_clear_session. reflexivity.
Qed.

(** A click on "Clear All" (lines 269-277). *)
Lemma run_clear (s : session) (i : input) :
  in_button i = ClearBtn ->
  fst (run s i) = mk_session [] true "" (show_explanation_only s) /\
  o_outcome (snd (run s i)) = Rerun.
Proof.
  intros Hb. unfold run. rewrite Hb. cbn [step_bind].
  destruct (stage_revert_warning_cont ClearBtn (start_frame s i)) as [f1 [-> Hs1]].
  cbn [step_bind]. rewrite stage_revert_other by discriminate. cbn [step_bind].
  unfold stage_clear. cbn [button_eqb step_bind finish fst snd o_outcome].
  split; [|reflexivity].
  cbn [f_session with_session set_clear_triggered set_text_input_value set_history].
  rewrite Hs1. unfold start_frame, on_change.
  destruct (in_edit i); reflexivity.
Qed.

Lemma reachable_flag_down (s : session) : reachable s -> flag_down s.
Proof.
  induction 1 as [|s i _ _]; [reflexivity|].
  unfold event. destruct (run s i) as [s1 o1] eqn:Er.
  destruct (button_eqb (in_button i) ClearBtn) eqn:Eb.
  - assert (Hc : in_button i = ClearBtn) by (destruct (in_button i); simpl in Eb; congruence).
    destruct (run_clear s i Hc) as [_ Ho]. rewrite Er in Ho. simpl in Ho. rewrite Ho.
    destruct (run s1 (rerun_input i)) as [s2 o2] eqn:Er2. simpl.
    replace s2 with (fst (run s1 (rerun_input i))) by (rewrite Er2; reflexivity).
    apply run_flag_down. discriminate.
  - assert (Hc : in_button i <> ClearBtn) by (intros H; rewrite H in Eb; discriminate).
    pose proof (run_flag_down s i Hc) as Hf. rewrite Er in Hf. simpl in Hf.
    destruct (o_outcome o1); try exact Hf.
    destruct (run s1 (rerun_input i)) as [s2 o2] eqn:Er2. simpl.
    replace s2 with (fst (run s1 (rerun_input i))) by (rewrite Er2; reflexivity).
    apply run_flag_down. discriminate.
Qed.

(** ** Claims *)



(** C2: a successful "Optimize Code" run on a non-blank buffer appends
    exactly one entry {messy_code, LLM answer, detected_language} at the end
    of history, keeping the earlier entries as they were; two such runs in
    a row from an empty history leave two entries, the first being the
    first run's. *)
Theorem C2_optimize_append_only (s0 s1 s2 : session) (i1 i2 : input) (o1 o2 : output) :
  in_button i1 = OptimizeBtn -> in_button i2 = OptimizeBtn ->
  str_truthy (py_strip (f_messy_code (start_frame s0 i1))) = true ->
  str_truthy (py_strip (f_messy_code (start_frame s1 i2))) = true ->
  run s0 i1 = (s1, o1) -> o_outcome o1 <> Failed ->
  run s1 i2 = (s2, o2) -> o_outcome o2 <> Failed ->
  exists r1 r2,
    let e1 := mk_entry (f_messy_code (start_frame s0 i1)) r1
                (f_detected_language (start_frame s0 i1)) in
    let e2 := mk_entry (f_messy_code (start_frame s1 i2)) r2
                (f_detected_language (start_frame s1 i2)) in
    in_complete i1 (optimize_prompt (messy e1) (language e1)) = Completion r1 /\
    in_complete i2 (optimize_prompt (messy e2) (language e2)) = Completion r2 /\
    history s1 = (history s0 ++ [e1])%list /\
    history s2 = (history s1 ++ [e2])%list /\
    (history s0 = [] -> length (history s2) = 2 /\ nth_error (history s2) 0 = Some e1).
Proof.
  intros Hb1 Hb2 Hc1 Hc2 Hr1 Hok1 Hr2 Hok2.
  destruct (optimize_run _ _ _ _ Hb1 Hc1 Hr1 Hok1) as [r1 [Ec1 Eh1]].
  destruct (optimize_run _ _ _ _ Hb2 Hc2 Hr2 Hok2) as [r2 [Ec2 Eh2]].
  exists r1, r2. cbn zeta.
  split; [exact Ec1|]. split; [exact Ec2|]. split; [exact Eh1|]. split; [exact Eh2|].
  intros H0. rewrite Eh2, Eh1, H0. split; reflexivity.
Qed.

Lemma C2_optimize_append_only_witness :
  length (history (fst (run (fst (run init_session (py_input "x=1" OptimizeBtn "A")))
                             (py_input "y=2" OptimizeBtn "B")))) = 2.
Proof.
  destruct (C2_optimize_append_only init_session
              (fst (run init_session (py_input "x=1" OptimizeBtn "A")))
              (fst (run (fst (run init_session (py_input "x=1" OptimizeBtn "A")))
                        (py_input "y=2" OptimizeBtn "B")))
              (py_input "x=1" OptimizeBtn "A") (py_input "y=2" OptimizeBtn "B")
              (snd (run init_session (py_input "x=1" OptimizeBtn "A")))
              (snd (run (fst (run init_session (py_input "x=1" OptimizeBtn "A")))
                        (py_input "y=2" OptimizeBtn "B")))
              eq_refl eq_refl eq_refl eq_refl
              (surjective_pairing _) ltac:(vm_compute; discriminate)
              (surjective_pairing _) ltac:(vm_compute; discriminate))
    as [r1 [r2 [_ [_ [_ [_ H]]]]]].
  exact (proj1 (H eq_refl)).
Defined.

Lemma set_clear_triggered_same (s : session) :
  clear_triggered s = false -> set_clear_triggered s false = s.
Proof. destruct s; simpl; intros ->; reflexivity. Qed.

Lemma start_frame_session (s : session) (i : input) :
  f_session (start_frame s i) = on_change s (in_edit i).
Proof. reflexivity. Qed.

Lemma on_change_flag (s : session) (e : option string) :
  clear_triggered (on_change s e) = clear_triggered s.
Proof. destruct e; reflexivity. Qed.

(** C3: on a reachable session, a click on "Revert" with at most one
    history entry shows the "No previous version" warning and changes
    nothing (the session is the one the text area's on_change callback left)
    and calls no LLM; with N > 1 entries it pops the last one, leaving N-1,
    reports success, and the active view (messy_code, optimized,
    detected_language) is the new last entry. *)
Theorem C3_revert (s s' : session) (i : input) (o : output) :
  reachable s -> in_button i = RevertBtn -> run s i = (s', o) ->
  (length (history s) <= 1 ->
     s' = on_change s (in_edit i) /\ o_messages o = [Warning msg_no_previous] /\
     o_calls o = []) /\
  (1 < length (history s) ->
     history s' = removelast (history s) /\
     length (history s') = length (history s) - 1 /\
     o_messages o = [Success msg_reverted] /\
     exists e, py_last (history s') = Some e /\
               o_view o = (messy e, Some (cleaned e), language e)).
Proof.
  intros Hr Hb Hrun. pose proof (reachable_flag_down s Hr) as Hflag.
  unfold run in Hrun. rewrite Hb in Hrun. cbn [step_bind] in Hrun.
  pose proof (start_frame_history s i) as Hh.
  assert (Hf0 : clear_triggered (f_session (start_frame s i)) = false)
    by (rewrite start_frame_session, on_change_flag; exact Hflag).
  pose proof (start_frame_session s i) as Hs0.
  assert (Hm0 : f_messages (start_frame s i) = []) by reflexivity.
  assert (Hc0 : f_calls (start_frame s i) = []) by reflexivity.
  set (f0 := start_frame s i) in *. clearbody f0.
  split.
  - intros Hle. unfold stage_revert_warning in Hrun.
    cbn [button_eqb andb] in Hrun. rewrite Hh in Hrun.
    replace (length (history s) <=? 1) with true in Hrun by (symmetry; apply Nat.leb_le; lia).
    cbn [step_bind] in Hrun. unfold stage_revert in Hrun.
    cbn [button_eqb andb add_message f_session] in Hrun. rewrite Hh in Hrun.
    replace (1 <? length (history s)) with false in Hrun by (symmetry; apply Nat.ltb_ge; lia).
    cbn [step_bind] in Hrun.
    rewrite stage_clear_other in Hrun by discriminate. cbn [step_bind] in Hrun.
    rewrite stage_reset_clear_session in Hrun. cbn [step_bind] in Hrun.
    cbn [add_message f_session] in Hrun. rewrite (set_clear_triggered_same _ Hf0) in Hrun.
    rewrite stage_optimize_other in Hrun by discriminate. cbn [step_bind] in Hrun.
    rewrite stage_explain_other in Hrun by discriminate. cbn [step_bind] in Hrun.
    match type of Hrun with
    | context [stage_comparison ?b ?c ?f] =>
        destruct (stage_comparison_other b c f ltac:(discriminate)) as [f' [Hf [Hs [Hc [Hm _]]]]]
    end.
    rewrite Hf in Hrun. unfold finish in Hrun. injection Hrun as <- <-.
    cbn [o_messages o_calls]. rewrite Hs, Hc, Hm.
    cbn [f_session f_messages f_calls with_session add_message]. rewrite Hs0, Hm0, Hc0. split; [reflexivity|split; reflexivity].
  - intros Hgt. unfold stage_revert_warning in Hrun.
    cbn [button_eqb andb] in Hrun. rewrite Hh in Hrun.
    replace (length (history s) <=? 1) with false in Hrun by (symmetry; apply Nat.leb_gt; lia).
    cbn [step_bind] in Hrun. unfold stage_revert in Hrun.
    cbn [button_eqb andb] in Hrun. rewrite Hh in Hrun.
    replace (1 <? length (history s)) with true in Hrun by (symmetry; apply Nat.ltb_lt; lia).
    destruct (py_last_removelast _ Hgt) as [e He].
    cbn [f_session with_session set_history history] in Hrun. rewrite He in Hrun.
    cbn [step_bind] in Hrun.
    rewrite stage_clear_other in Hrun by discriminate. cbn [step_bind] in Hrun.
    rewrite stage_reset_clear_session in Hrun. cbn [step_bind] in Hrun.
    rewrite stage_optimize_other in Hrun by discriminate. cbn [step_bind] in Hrun.
    rewrite stage_explain_other in Hrun by discriminate. cbn [step_bind] in Hrun.
    unfold stage_comparison in Hrun.
    cbn [f_session with_session add_message with_view set_clear_triggered history
         show_explanation_only set_history] in Hrun.
    rewrite He in Hrun. cbn [button_eqb] in Hrun.
    destruct (_ && _ && _) in Hrun; unfold finish in Hrun; injection Hrun as <- <-;
      cbn; rewrite Hm0;
      (split; [reflexivity|split; [rewrite removelast_length; reflexivity|
                                   split; [reflexivity|exists e; split; [exact He|reflexivity]]]]).
Qed.

Lemma C3_revert_witness :
  let s2 := fst (event (fst (event init_session (py_input "x=1" OptimizeBtn "A")))
                       (py_input "x=2" OptimizeBtn "B")) in
  length (history (fst (run s2 (py_input "x=2" RevertBtn "C")))) = 1.
Proof.
  cbv zeta.
  pose proof (reach_event _ (py_input "x=2" OptimizeBtn "B")
                (reach_event _ (py_input "x=1" OptimizeBtn "A") reach_init)) as Hr.
  destruct (C3_revert _ _ (py_input "x=2" RevertBtn "C") _ Hr eq_refl (surjective_pairing _))
    as [_ H].
  destruct (H ltac:(vm_compute; lia)) as [_ [Hl _]].
  rewrite Hl. vm_compute. reflexivity.
Defined.

(** Steps whose early exits never look like a normal end. *)
Definition step_ok (Q : frame -> Prop) (r : step) : Prop :=
  match r with
  | Continue f => Q f
  | Exit _ o => o <> Finished
  end.

Lemma step_ok_bind (Q : frame -> Prop) (r : step) (k : frame -> step) :
  step_ok Q r -> (forall f, Q f -> step_ok Q (k f)) -> step_ok Q (r >>= k).
Proof. destruct r; simpl; auto. Qed.

Definition no_comparison (f : frame) : Prop := f_comparison f = None.

Ltac stage_ok :=
  intros f H; repeat (match goal with
                      | |- context [if ?b then _ else _] => destruct b
                      | |- context [match ?x with _ => _ end] => destruct x
                      end; cbn in * ); unfold no_comparison in *; cbn in *;
  first [exact H | discriminate | auto].

Lemma prefix_no_comparison (s : session) (i : input) :
  step_ok no_comparison
    (Continue (start_frame s i)
     >>= stage_revert_warning (in_button i)
     >>= stage_revert (in_button i)
     >>= stage_clear (in_button i)
     >>= stage_reset_clear
     >>= stage_optimize (in_button i) (in_complete i)
     >>= stage_explain (in_button i) (in_complete i)).
Proof.
  repeat apply step_ok_bind; try reflexivity.
  - unfold stage_revert_warning. stage_ok.
  - unfold stage_revert. stage_ok.
  - unfold stage_clear. stage_ok.
  - unfold stage_reset_clear. stage_ok.
  - unfold stage_optimize. stage_ok.
  - unfold stage_explain. stage_ok.
Qed.

(** The side-by-side view a run would show for the session [s]: the
    condition of lines 314-319. *)
Definition comparison_shown (s : session) : option entry :=
  match py_last (history s) with
  | Some last =>
      if str_truthy (py_strip (cleaned last)) && str_truthy (py_strip (messy last))
         && negb (show_explanation_only s)
      then Some last else None
  | None => None
  end.

Definition blank_answer_input : input := py_input "x=1" OptimizeBtn "   ".

(** C4 (counterexample): a blank LLM answer is stored in history; on the
    next run the history is non-empty and [show_explanation_only] is false,
    yet no comparison view is displayed. *)
Lemma C4_counterexample :
  reachable (fst (event init_session blank_answer_input)) /\
  history (fst (event init_session blank_answer_input)) <> [] /\
  show_explanation_only (fst (event init_session blank_answer_input)) = false /\
  o_comparison (snd (run (fst (event init_session blank_answer_input))
                         (py_input "x=1" NoButton "A"))) = None.
Proof.
  split; [apply reach_event, reach_init|].
  vm_compute. split; [discriminate|]. split; reflexivity.
Qed.

(** C4 (amended): in every run that ends normally, the comparison view
    shows exactly history[-1] of the resulting session (original code,
    cleaned code, language) when history is non-empty,
    [show_explanation_only] is false and both codes of that entry are
    non-blank after strip(); otherwise no comparison is shown. *)
Theorem C4_comparison_view (s s' : session) (i : input) (o : output) :
  run s i = (s', o) -> o_outcome o = Finished ->
  o_comparison o = comparison_shown s'.
Proof.
  intros Hrun Hfin. unfold run in Hrun.
  pose proof (prefix_no_comparison s i) as Hp.
  destruct (Continue (start_frame s i)
     >>= stage_revert_warning (in_button i)
     >>= stage_revert (in_button i)
     >>= stage_clear (in_button i)
     >>= stage_reset_clear
     >>= stage_optimize (in_button i) (in_complete i)
     >>= stage_explain (in_button i) (in_complete i)) as [f|f o'] eqn:E;
    cbn [step_bind step_ok] in Hrun, Hp.
  - unfold no_comparison in Hp. unfold stage_comparison, comparison_shown in *.
    destruct (py_last (history (f_session f))) as [last|] eqn:El.
    + destruct (_ && _ && _) eqn:Ec.
      * destruct (button_eqb (in_button i) ExplainOptimizedBtn).
        -- destruct (in_complete i _); unfold finish in Hrun; injection Hrun as <- <-;
             cbn in *; [rewrite El, Ec; reflexivity|discriminate].
        -- unfold finish in Hrun; injection Hrun as <- <-. cbn. rewrite El, Ec. reflexivity.
      * unfold finish in Hrun; injection Hrun as <- <-. cbn. rewrite El, Ec. exact Hp.
    + unfold finish in Hrun; injection Hrun as <- <-. cbn. rewrite El. exact Hp.
  - unfold finish in Hrun. injection Hrun as _ <-. cbn in Hfin. contradiction.
Qed.

Lemma C4_comparison_view_witness :
  o_outcome (snd (run (fst (event init_session (py_input "x=1" OptimizeBtn "A")))
                      (py_input "x=1" NoButton "B"))) = Finished /\
  o_comparison (snd (run (fst (event init_session (py_input "x=1" OptimizeBtn "A")))
                         (py_input "x=1" NoButton "B")))
  = Some (mk_entry "x=1" "A" (Some "python")).
Proof.
  assert (Hf : o_outcome (snd (run (fst (event init_session (py_input "x=1" OptimizeBtn "A")))
                                   (py_input "x=1" NoButton "B"))) = Finished)
    by (vm_compute; reflexivity).
  split; [exact Hf|].
  rewrite (C4_comparison_view _ _ _ _ (surjective_pairing _) Hf).
  vm_compute. reflexivity.
Defined.

(** ** Lexer-name normalisation *)

Lemma ascii_lower_idem (c : ascii) : ascii_lower (ascii_lower c) = ascii_lower c.
Proof.
  destruct c as [[] [] [] [] [] [] [] []]; reflexivity.
Qed.

Lemma py_lower_idem (s : string) : py_lower (py_lower s) = py_lower s.
Proof. induction s as [|c s IH]; simpl; [reflexivity|]. rewrite ascii_lower_idem, IH. reflexivity. Qed.

Lemma find_existsb_false {A} (p : A -> bool) (l : list A) :
  existsb p l = false -> find p l = None.
Proof.
  induction l as [|a l IH]; simpl; [reflexivity|].
  destruct (p a); simpl; [discriminate|exact IH].
Qed.

Lemma truthy_None_or_empty (o : option string) : truthy o = false -> o = None \/ o = Some "".
Proof.
  destruct o as [v|]; simpl; [|auto]. intros H. apply str_truthy_false in H. subst. auto.
Qed.

(** The spec's notion of a lexer name matching an alias of the table:
    directly, case-insensitively, or once both sides keep only [a-z0-9]. *)
Definition alias_matches (raw : string) : bool :=
  truthy (dict_get raw pygments_to_lang)
  || truthy (dict_get (py_lower raw) pygments_to_lang)
  || existsb (fun kv => String.eqb (strip_non_alnum (py_lower (fst kv)))
                                   (strip_non_alnum (py_lower raw)))
             pygments_to_lang.

(** C5 (counterexample): the heuristic's name "Haskell" matches no alias,
    and [resolve_language] returns it lower-cased, not as produced. *)
Lemma C5_counterexample :
  alias_matches "Haskell" = false /\
  resolve_language None "main = print 1" (Some (fun _ => Guessed "Haskell")) = Some "haskell" /\
  resolve_language None "main = print 1" (Some (fun _ => Guessed "Haskell")) <> Some "Haskell".
Proof. vm_compute. split; [reflexivity|split; [reflexivity|discriminate]]. Qed.

(** C5 (amended): with a non-empty code text, no extension match, and a
    lexer name matching no alias (directly, case-insensitively or after
    stripping), [resolve_language] returns the lexer name lower-cased
    ([lexer.name.lower()], line 162). *)
Theorem C5_raw_fallback (uploaded_name : option string) (code raw : string)
    (guess : string -> guess_result) :
  ext_language uploaded_name = None -> str_truthy code = true ->
  guess code = Guessed raw -> alias_matches raw = false ->
  resolve_language uploaded_name code (Some guess) = Some (py_lower raw).
Proof.
  intros Hext Hcode Hg Ham.
  unfold resolve_language. rewrite Hext, Hcode, Hg. cbn [truthy negb andb].
  unfold alias_matches in Ham. apply orb_false_iff in Ham as [Ham H3].
  apply orb_false_iff in Ham as [_ H2].
  unfold normalize_lexer_name. rewrite !py_lower_idem.
  rewrite H2. rewrite (find_existsb_false _ _ H3).
  destruct (truthy_None_or_empty _ H2) as [-> | ->]; reflexivity.
Qed.

Lemma C5_raw_fallback_witness :
  resolve_language None "main = print 1" (Some (fun _ => Guessed "Haskell")) = Some "haskell".
Proof.
  exact (C5_raw_fallback None "main = print 1" "Haskell" (fun _ => Guessed "Haskell")
           eq_refl eq_refl eq_refl ltac:(vm_compute; reflexivity)).
Defined.

Definition opt_str_eqb (a b : option string) : bool :=
  match a, b with
  | Some x, Some y => String.eqb x y
  | None, None => true
  | _, _ => false
  end.

Lemma opt_str_eqb_eq (a b : option string) : opt_str_eqb a b = true -> a = b.
Proof.
  destruct a, b; simpl; try discriminate; auto.
  intros H. apply String.eqb_eq in H. subst. reflexivity.
Qed.

(** Each key of [pygments_to_lang] occurs once. *)
Lemma pygments_to_lang_get (k v : string) :
  In (k, v) pygments_to_lang -> dict_get k pygments_to_lang = Some v.
Proof.
  intros H.
  assert (Hall : forallb (fun kv => opt_str_eqb (dict_get (fst kv) pygments_to_lang)
                                                (Some (snd kv))) pygments_to_lang = true)
    by reflexivity.
  rewrite forallb_forall in Hall. apply opt_str_eqb_eq, (Hall (k, v) H).
Qed.

(** Apart from c++ and c#, the first key with a key's stripped form maps
    to that key's tag. *)
Definition strip_consistent : bool :=
  forallb (fun kv =>
             if String.eqb (fst kv) "c++" || String.eqb (fst kv) "c#" then true
             else match find (fun kv' => String.eqb (strip_non_alnum (py_lower (fst kv')))
                                                    (strip_non_alnum (fst kv)))
                             pygments_to_lang with
                  | Some (_, v') => String.eqb v' (snd kv)
                  | None => false
                  end)
          pygments_to_lang.

Lemma strip_consistent_true : strip_consistent = true.
Proof. vm_compute. reflexivity. Qed.

(** C6 (counterexample): "C #" strips to the stripped form of the alias
    "c#" of csharp, but it normalises to c, the first key stripping to "c". *)
Lemma C6_counterexample :
  dict_get "c#" pygments_to_lang = Some "csharp" /\
  strip_non_alnum (py_lower "C #") = strip_non_alnum "c#" /\
  dict_get (py_lower "C #") pygments_to_lang = None /\
  normalize_lexer_name "C #" = Some "c" /\
  resolve_language None "x" (Some (fun _ => Guessed "C #")) = Some "c".
Proof. vm_compute. repeat split. Qed.

(** C6 (amended): every spelling equal to an alias up to letter case
    normalises to that alias's tag; a spelling that matches no alias
    directly normalises, when it strips to an alias's stripped form, to
    that alias's tag unless the alias is c++ or c#; spellings stripping to
    "c" that are no alias normalise to c. *)
Theorem C6_alias_normalization :
  (forall k v s, In (k, v) pygments_to_lang -> py_lower s = k ->
     normalize_lexer_name s = Some v) /\
  (forall k v s, In (k, v) pygments_to_lang -> k <> "c++" -> k <> "c#" ->
     dict_get (py_lower s) pygments_to_lang = None ->
     strip_non_alnum (py_lower s) = strip_non_alnum k ->
     normalize_lexer_name s = Some v) /\
  (forall s, strip_non_alnum (py_lower s) = "c" ->
     normalize_lexer_name s =
       Some (match dict_get (py_lower s) pygments_to_lang with
             | Some v => v
             | None => "c"
             end)).
Proof.
  split; [|split].
  - intros k v s Hin Hl. unfold normalize_lexer_name. rewrite Hl.
    rewrite (pygments_to_lang_get _ _ Hin).
    assert (Ht : truthy (Some v) = true) by exact (pygments_to_lang_values _ _ Hin).
    repeat (rewrite Ht; cbv iota). reflexivity.
  - intros k v s Hin Hc1 Hc2 Hd Hs. unfold normalize_lexer_name.
    rewrite py_lower_idem, Hd. cbn [truthy]. rewrite Hs.
    pose proof strip_consistent_true as Hall. unfold strip_consistent in Hall.
    rewrite forallb_forall in Hall. specialize (Hall (k, v) Hin). cbn [fst snd] in Hall.
    apply String.eqb_neq in Hc1. apply String.eqb_neq in Hc2. rewrite Hc1, Hc2 in Hall.
    cbn [orb] in Hall.
    destruct (find _ pygments_to_lang) as [[k' v']|] eqn:Ef; [|discriminate].
    apply String.eqb_eq in Hall. subst v'.
    apply find_some in Ef as [Hin' _].
    assert (Ht : truthy (Some v) = true) by exact (pygments_to_lang_values _ _ Hin').
    rewrite Ht. reflexivity.
  - intros s Hs. unfold normalize_lexer_name. rewrite py_lower_idem.
    destruct (dict_get (py_lower s) pygments_to_lang) as [v|] eqn:Hd.
    + assert (Ht : truthy (Some v) = true)
        by exact (pygments_to_lang_values _ _ (dict_get_In _ _ _ Hd)).
      repeat (rewrite Ht; cbv iota). reflexivity.
    + cbn [truthy]. rewrite Hs. reflexivity.
Qed.

Lemma C6_alias_normalization_witness :
  normalize_lexer_name "Cpp" = Some "cpp" /\ normalize_lexer_name "C++" = Some "cpp".
Proof.
  split.
  - exact (proj1 C6_alias_normalization "cpp" "cpp" "Cpp"
             ltac:(simpl; repeat (first [left; reflexivity | right])) eq_refl).
  - exact (proj1 C6_alias_normalization "c++" "cpp" "C++"
             ltac:(simpl; repeat (first [left; reflexivity | right])) eq_refl).
Defined.

(** ** ClassNotFound *)

(** The input of a run in which [guess_lexer] is not available (the
    ImportError branch of lines 9-14). *)
Definition without_guesser (i : input) : input :=
  mk_input (in_upload i) (in_edit i) (in_button i) None (in_complete i).

Lemma resolve_class_not_found (u : option string) (code : string) (guess : string -> guess_result) :
  guess code = ClassNotFound ->
  resolve_language u code (Some guess) = resolve_language u code None.
Proof.
  intros Hg. unfold resolve_language.
  destruct (ext_language u) as [v|] eqn:Ev.
  - assert (Hv : str_truthy v = true).
    { revert Ev. unfold ext_language. destruct u as [n|]; [|discriminate].
      destruct (str_truthy n); [|discriminate].
      intros H. exact (EXTENSION_TO_LANG_values _ _ (dict_get_In _ _ _ H)). }
    cbn [truthy]. rewrite Hv. reflexivity.
  - destruct (str_truthy code); cbn; [rewrite Hg|]; reflexivity.
Qed.

(** C7: when the code has no extension match, is non-empty, and the lexer
    guesser raises ClassNotFound, [resolve_language] yields [None]
    (unresolved) rather than an error; and a run in which the guesser
    raises ClassNotFound on the code is, in its whole effect on the
    session and on what is shown, the run without any guesser: the
    exception neither ends the run nor shows anything. *)
Theorem C7_class_not_found (uploaded_name : option string) (code : string)
    (guess : string -> guess_result) :
  ext_language uploaded_name = None -> str_truthy code = true -> guess code = ClassNotFound ->
  resolve_language uploaded_name code (Some guess) = None /\
  (forall s i, in_guess i = Some guess ->
     guess (f_messy_code (start_frame s i)) = ClassNotFound ->
     run s i = run s (without_guesser i)).
Proof.
  intros Hext Hcode Hg. split.
  - unfold resolve_language. rewrite Hext, Hcode, Hg. reflexivity.
  - intros s i Hi Hm.
    assert (Hsf : start_frame s i = start_frame s (without_guesser i)).
    { unfold start_frame in *. cbn [without_guesser in_upload in_edit in_guess] in *.
      rewrite Hi. f_equal. apply resolve_class_not_found. exact Hm. }
    unfold run. rewrite Hsf. reflexivity.
Qed.

Lemma C7_class_not_found_witness :
  resolve_language None "???" (Some (fun _ => ClassNotFound)) = None /\
  run init_session
    (mk_input None (Some "???") OptimizeBtn (Some (fun _ => ClassNotFound)) (fun _ => Completion "A"))
  = run init_session (without_guesser
    (mk_input None (Some "???") OptimizeBtn (Some (fun _ => ClassNotFound)) (fun _ => Completion "A"))).
Proof.
  split.
  - exact (proj1 (C7_class_not_found None "???" (fun _ => ClassNotFound) eq_refl eq_refl eq_refl)).
  - exact (proj2 (C7_class_not_found None "???" (fun _ => ClassNotFound) eq_refl eq_refl eq_refl)
             init_session
             (mk_input None (Some "???") OptimizeBtn (Some (fun _ => ClassNotFound))
                (fun _ => Completion "A"))
             eq_refl eq_refl).
Defined.

(** ** Clear All *)

(** A run without click and without edit (such as the one after
    [st.rerun()]) keeps history and the stored text, resets
    [clear_triggered], and passes [area_value] to the text area. *)
Lemma run_idle (s : session) (i : input) :
  in_button i = NoButton -> in_edit i = None ->
  history (fst (run s i)) = history s /\
  text_input_value (fst (run s i)) = text_input_value s /\
  clear_triggered (fst (run s i)) = false /\
  o_area_value (snd (run s i)) = area_value s (in_upload i).
Proof.
  intros Hb He. unfold run. rewrite Hb. cbn [step_bind].
  rewrite stage_revert_warning_other by discriminate. cbn [step_bind].
  rewrite stage_revert_other by discriminate. cbn [step_bind].
  rewrite stage_clear_other by discriminate. cbn [step_bind].
  rewrite stage_reset_clear_session. cbn [step_bind].
  rewrite stage_optimize_other by discriminate. cbn [step_bind].
  rewrite stage_explain_other by discriminate. cbn [step_bind].
  match goal with
  | |- context [stage_comparison ?b ?c ?f] =>
      destruct (stage_comparison_other b c f ltac:(discriminate)) as [f' [Hf [Hs [_ [_ Ha]]]]];
      rewrite Hf
  end.
  unfold finish. cbn [fst snd o_area_value]. rewrite Hs, Ha.
  unfold start_frame. rewrite He. cbn. repeat split; reflexivity.
Qed.

(** C8: a click on "Clear All", from any session, empties history and the
    stored input text and sets [clear_triggered] before [st.rerun()]; the
    rerun that follows passes "" as the text area's value (the blank
    widget), and leaves history and the stored text empty. *)
Theorem C8_clear_all (s : session) (i : input) :
  in_button i = ClearBtn ->
  history (fst (run s i)) = [] /\ text_input_value (fst (run s i)) = "" /\
  clear_triggered (fst (run s i)) = true /\ o_outcome (snd (run s i)) = Rerun /\
  history (fst (event s i)) = [] /\ text_input_value (fst (event s i)) = "" /\
  snd (event s i) = [snd (run s i); snd (run (fst (run s i)) (rerun_input i))] /\
  o_area_value (snd (run (fst (run s i)) (rerun_input i))) = "".
Proof.
  intros Hb. destruct (run_clear s i Hb) as [Hs1 Ho].
  destruct (run_idle (fst (run s i)) (rerun_input i) eq_refl eq_refl) as [Hh [Ht [_ Ha]]].
  assert (Hev : event s i = (fst (run (fst (run s i)) (rerun_input i)),
                             [snd (run s i); snd (run (fst (run s i)) (rerun_input i))])).
  { unfold event. destruct (run s i) as [s1 o1]. cbn [fst snd] in Ho |- *. rewrite Ho.
    destruct (run s1 (rerun_input i)); reflexivity. }
  rewrite Hev. cbn [fst snd]. rewrite Hh, Ht, Ha, Ho, Hs1.
  repeat split; reflexivity.
Qed.

Lemma C8_clear_all_witness :
  history (fst (event (fst (event init_session (py_input "x=1" OptimizeBtn "A")))
                      (py_input "x=1" ClearBtn "A"))) = [].
Proof.
  exact (proj1 (proj2 (proj2 (proj2 (proj2 (C8_clear_all
            (fst (event init_session (py_input "x=1" OptimizeBtn "A")))
            (py_input "x=1" ClearBtn "A") eq_refl)))))).
Defined.

(** ** Explain Code *)

Definition hist_session : session :=
  fst (event init_session (py_input "x=1" OptimizeBtn "A")).

(** "Explain Code" while the LLM call fails. *)
Definition explain_fails_input : input :=
  mk_input None (Some "x=1") ExplainBtn (Some (fun _ => Guessed "Python")) (fun _ => ServiceError).

(** C9 (code bug): line 302 sets [show_explanation_only] before the LLM
    call and line 310 resets it only after a successful call, without a
    [finally].  When the call raises, the flag stays true in the session,
    and the comparison view of the existing history entry, shown before,
    is then suppressed on the next run.  A successful explanation does
    reset it. *)
Lemma C9_explain_failure_leaves_flag :
  show_explanation_only
    (fst (run hist_session (py_input "x=1" ExplainBtn "explained"))) = false /\
  o_outcome (snd (run hist_session explain_fails_input)) = Failed /\
  history (fst (run hist_session explain_fails_input)) = history hist_session /\
  show_explanation_only (fst (run hist_session explain_fails_input)) = true /\
  o_comparison (snd (run hist_session (py_input "x=1" NoButton "A")))
    = Some (mk_entry "x=1" "A" (Some "python")) /\
  o_comparison (snd (run (fst (run hist_session explain_fails_input))
                         (py_input "x=1" NoButton "A"))) = None.
Proof. vm_compute. repeat split. Qed.

(** ** Blank buffers *)

(** C10: on a reachable session, clicking "Optimize Code" or "Explain
    Code" with an empty or whitespace-only buffer is a no-op decided by
    the script itself (lines 288 and 301): no prompt is sent to the LLM,
    the session is the one the text area's on_change callback left (in
    particular history is unchanged) and the run ends normally. *)
Theorem C10_blank_noop (s s' : session) (i : input) (o : output) :
  reachable s -> in_button i = OptimizeBtn \/ in_button i = ExplainBtn ->
  str_truthy (py_strip (f_messy_code (start_frame s i))) = false ->
  run s i = (s', o) ->
  s' = on_change s (in_edit i) /\ history s' = history s /\
  o_calls o = [] /\ o_outcome o = Finished.
Proof.
  intros Hr Hb Hblank Hrun. pose proof (reachable_flag_down s Hr) as Hflag.
  assert (Hf0 : clear_triggered (f_session (start_frame s i)) = false)
    by (rewrite start_frame_session, on_change_flag; exact Hflag).
  pose proof (start_frame_session s i) as Hs0.
  assert (Hc0 : f_calls (start_frame s i) = []) by reflexivity.
  assert (Hh : history (on_change s (in_edit i)) = history s)
    by (destruct (in_edit i); reflexivity).
  unfold run in Hrun.
  set (f0 := start_frame s i) in *. clearbody f0.
  destruct Hb as [Hb|Hb]; rewrite Hb in Hrun; cbn [step_bind] in Hrun;
    rewrite stage_revert_warning_other in Hrun by discriminate; cbn [step_bind] in Hrun;
    rewrite stage_revert_other in Hrun by discriminate; cbn [step_bind] in Hrun;
    rewrite stage_clear_other in Hrun by discriminate; cbn [step_bind] in Hrun;
    rewrite stage_reset_clear_session in Hrun; cbn [step_bind] in Hrun;
    rewrite (set_clear_triggered_same _ Hf0) in Hrun.
  - unfold stage_optimize in Hrun. cbn [button_eqb andb f_messy_code with_session] in Hrun.
    rewrite Hblank in Hrun. cbn [step_bind] in Hrun.
    rewrite stage_explain_other in Hrun by discriminate. cbn [step_bind] in Hrun.
    match type of Hrun with
    | context [stage_comparison ?b ?c ?f] =>
        destruct (stage_comparison_other b c f ltac:(discriminate)) as [f' [Hf [Hs [Hc _]]]]
    end.
    rewrite Hf in Hrun. unfold finish in Hrun. injection Hrun as <- <-.
    cbn [o_calls o_outcome]. rewrite Hs, Hc. cbn [f_session f_calls with_session].
    rewrite Hs0, Hc0, Hh. repeat split; reflexivity.
  - rewrite stage_optimize_other in Hrun by discriminate. cbn [step_bind] in Hrun.
    unfold stage_explain in Hrun. cbn [button_eqb andb f_messy_code with_session] in Hrun.
    rewrite Hblank in Hrun. cbn [step_bind] in Hrun.
    match type of Hrun with
    | context [stage_comparison ?b ?c ?f] =>
        destruct (stage_comparison_other b c f ltac:(discriminate)) as [f' [Hf [Hs [Hc _]]]]
    end.
    rewrite Hf in Hrun. unfold finish in Hrun. injection Hrun as <- <-.
    cbn [o_calls o_outcome]. rewrite Hs, Hc. cbn [f_session f_calls with_session].
    rewrite Hs0, Hc0, Hh. repeat split; reflexivity.
Qed.

Lemma C10_blank_noop_witness :
  o_calls (snd (run hist_session (py_input "   " OptimizeBtn "A"))) = [].
Proof.
  exact (proj1 (proj2 (proj2 (C10_blank_noop hist_session _ (py_input "   " OptimizeBtn "A") _
           (reach_event _ _ reach_init) (or_introl eq_refl) eq_refl (surjective_pairing _))))).
Defined.

(** * Further properties of the code *)

(** ** os.path.splitext *)

Lemma append_empty_r (s : string) : (s ++ "")%string = s.
Proof. induction s as [|c s IH]; simpl; [reflexivity|rewrite IH; reflexivity]. Qed.

Lemma rfind_lt (c : ascii) (s : string) (k : nat) :
  rfind c s = Some k -> k < String.length s.
Proof.
  revert k. induction s as [|d s IH]; simpl; intros k H; [discriminate|].
  destruct (rfind c s) as [k'|] eqn:E.
  - injection H as <-. specialize (IH k' eq_refl). lia.
  - destruct (Ascii.eqb c d); [injection H as <-; lia|discriminate].
Qed.

Lemma substring_full (s : string) : substring 0 (String.length s) s = s.
Proof. induction s as [|c s IH]; simpl; [reflexivity|rewrite IH; reflexivity]. Qed.

Lemma substring_split (s : string) (d : nat) :
  d <= String.length s ->
  (substring 0 d s ++ substring d (String.length s - d) s)%string = s.
Proof.
  revert d. induction s as [|c s IH]; intros d Hd.
  - simpl in Hd. assert (d = 0) as -> by lia. reflexivity.
  - destruct d as [|d].
    + simpl. rewrite substring_full. reflexivity.
    + simpl in Hd |- *. rewrite IH by lia. reflexivity.
Qed.

(** X1: [splitext] cuts the name in two: root ++ ext is the name itself. *)
Theorem X1_splitext_roundtrip (p : string) :
  (fst (splitext p) ++ snd (splitext p))%string = p.
Proof.
  unfold splitext. destruct (rfind "."%char p) as [d|] eqn:Ed; [|apply append_empty_r].
  destruct (rfind "/"%char p); destruct (_ <=? d); try apply append_empty_r;
    (destruct (existsb _ _); [|apply append_empty_r]);
    apply substring_split; apply rfind_lt in Ed; lia.
Qed.












(** ** What language detection can return *)

(** [LANGUAGES], lines 31-33: the tags offered for highlighting. *)
Definition LANGUAGES : list string :=
  ["python"; "javascript"; "java"; "c"; "cpp"; "csharp"; "go"; "ruby"; "php"; "rust";
   "typescript"; "kotlin"; "swift"; "scala"; "perl"; "r"; "bash"; "html"; "css"; "sql";
   "json"; "xml"; "yaml"; "markdown"].

Definition in_languages (l : string) : bool := existsb (String.eqb l) LANGUAGES.

Lemma in_languages_In (l : string) : in_languages l = true -> In l LANGUAGES.
Proof.
  unfold in_languages. intros H. apply existsb_exists in H as [x [Hx Hl]].
  apply String.eqb_eq in Hl. subst. exact Hx.
Qed.

Lemma table_values_languages (t : list (string * string)) (k v : string) :
  forallb (fun kv => in_languages (snd kv)) t = true -> In (k, v) t -> In v LANGUAGES.
Proof.
  intros Hall Hin. rewrite forallb_forall in Hall.
  apply in_languages_In, (Hall (k, v) Hin).
Qed.

Lemma ext_values_languages (k v : string) : In (k, v) EXTENSION_TO_LANG -> In v LANGUAGES.
Proof. apply table_values_languages. reflexivity. Qed.

Lemma pyg_values_languages (k v : string) : In (k, v) pygments_to_lang -> In v LANGUAGES.
Proof. apply table_values_languages. reflexivity. Qed.

(** An intermediate [detected_language] of lines 206-215. *)
Definition tag_or_none (o : option string) : Prop :=
  match o with
  | Some v => In v LANGUAGES
  | None => True
  end.

Lemma dict_get_pyg_tag (k : string) : tag_or_none (dict_get k pygments_to_lang).
Proof.
  destruct (dict_get k pygments_to_lang) eqn:E; [|exact I].
  exact (pyg_values_languages _ _ (dict_get_In _ _ _ E)).
Qed.

(** X3: the lexer-name normalisation returns a tag of [LANGUAGES] or the
    lexer name lower-cased, and depends only on the lower-cased name. *)
Theorem X3_normalize_range (name : string) :
  (exists l, normalize_lexer_name name = Some l /\ (In l LANGUAGES \/ l = py_lower name)) /\
  normalize_lexer_name (py_lower name) = normalize_lexer_name name.
Proof.
  split; [|unfold normalize_lexer_name; rewrite !py_lower_idem; reflexivity].
  unfold normalize_lexer_name.
  set (pn := py_lower name).
  assert (H1 : tag_or_none
    (if truthy (dict_get pn pygments_to_lang) then dict_get pn pygments_to_lang
     else dict_get (py_lower pn) pygments_to_lang)).
  { destruct (truthy _); apply dict_get_pyg_tag. }
  set (d2 := if truthy (dict_get pn pygments_to_lang) then dict_get pn pygments_to_lang
             else dict_get (py_lower pn) pygments_to_lang) in *.
  assert (H2 : tag_or_none
    (if truthy d2 then d2
     else match find (fun kv => String.eqb (strip_non_alnum (py_lower (fst kv)))
                                           (strip_non_alnum (py_lower pn))) pygments_to_lang with
          | Some (_, val) => Some val
          | None => d2
          end)).
  { destruct (truthy d2); [exact H1|].
    destruct (find _ pygments_to_lang) as [[k v]|] eqn:Ef; [|exact H1].
    apply find_some in Ef as [Hin _]. exact (pyg_values_languages _ _ Hin). }
  destruct (if truthy d2 then d2 else _) as [v|] eqn:E3; cbn [truthy].
  - destruct (str_truthy v); eexists; split; try reflexivity; [left; exact H2|right; reflexivity].
  - eexists; split; [reflexivity|right; reflexivity].
Qed.

Lemma ext_language_truthy (u : option string) (v : string) :
  ext_language u = Some v -> str_truthy v = true.
Proof.
  unfold ext_language. destruct u as [n|]; [|discriminate].
  destruct (str_truthy n); [|discriminate].
  intros H. exact (EXTENSION_TO_LANG_values _ _ (dict_get_In _ _ _ H)).
Qed.

Lemma ext_language_languages (u : option string) (v : string) :
  ext_language u = Some v -> In v LANGUAGES.
Proof.
  unfold ext_language. destruct u as [n|]; [|discriminate].
  destruct (str_truthy n); [|discriminate].
  intros H. exact (ext_values_languages _ _ (dict_get_In _ _ _ H)).
Qed.

(** X4: language detection is unresolved ([None]) exactly when no
    extension matched and either the code text is empty, pygments is not
    available, or the guesser raised ClassNotFound. *)
Theorem X4_resolve_none (u : option string) (code : string) (g : guesser) :
  resolve_language u code g = None <->
  ext_language u = None /\
  (code = "" \/ g = None \/ exists guess, g = Some guess /\ guess code = ClassNotFound).
Proof.
  unfold resolve_language.
  destruct (ext_language u) as [v|] eqn:Ee.
  - cbn [truthy]. rewrite (ext_language_truthy _ _ Ee). cbn. split; [discriminate|intros [H _]; discriminate].
  - cbn [truthy negb andb]. destruct (str_truthy code) eqn:Ec.
    + assert (code <> "") by (intros ->; discriminate).
      destruct g as [guess|].
      * destruct (guess code) as [name|] eqn:Eg.
        -- destruct (proj1 (X3_normalize_range name)) as [l [Hl _]]. rewrite Hl.
           split; [discriminate|].
           intros [_ [H0|[H0|[guess' [H1 H2]]]]]; try congruence.
        -- split; [intros _; split; [reflexivity|right; right; eauto]|reflexivity].
      * split; [intros _; split; [reflexivity|right; left; reflexivity]|reflexivity].
    + apply str_truthy_false in Ec. split; [intros _; split; [reflexivity|left; exact Ec]|reflexivity].
Qed.

(** X5: a resolved language is a tag of [LANGUAGES], unless it is the
    lower-cased name of the lexer pygments guessed for the code. *)
Theorem X5_resolve_range (u : option string) (code l : string) (g : guesser) :
  resolve_language u code g = Some l ->
  In l LANGUAGES \/
  exists guess name, g = Some guess /\ guess code = Guessed name /\ l = py_lower name.
Proof.
  unfold resolve_language. intros H.
  destruct (ext_language u) as [v|] eqn:Ee.
  - cbn [truthy] in H. rewrite (ext_language_truthy _ _ Ee) in H. cbn in H. injection H as <-.
    left. exact (ext_language_languages _ _ Ee).
  - cbn [truthy negb andb] in H. destruct (str_truthy code); [|discriminate].
    destruct g as [guess|]; [|discriminate].
    destruct (guess code) as [name|] eqn:Eg; [|discriminate].
    destruct (proj1 (X3_normalize_range name)) as [l' [Hl [Hin|Heq]]];
      rewrite Hl in H; injection H as <-; [left; exact Hin|right; eauto].
Qed.

Lemma X5_resolve_range_witness :
  In "python" LANGUAGES \/
  exists guess name, Some (fun _ : string => Guessed "JavaScript") = Some guess /\
    guess "console.log(1);" = Guessed name /\ "python" = py_lower name.
Proof.
  exact (X5_resolve_range (Some "script.py") "console.log(1);" "python"
           (Some (fun _ => Guessed "JavaScript")) eq_refl).
Defined.

Lemma X4_resolve_none_witness :
  resolve_language None "" (Some (fun _ => Guessed "Python")) = None.
Proof.
  exact (proj2 (X4_resolve_none None "" (Some (fun _ => Guessed "Python")))
           (conj eq_refl (or_introl eq_refl))).
Defined.

(** ** How a run changes history *)

Definition keeps_history (k : frame -> step) : Prop :=
  forall f, history (f_session (step_frame (k f))) = history (f_session f).

Lemma pres_hist (P : list entry -> Prop) (r : step) (k : frame -> step) :
  P (history (f_session (step_frame r))) -> keeps_history k ->
  P (history (f_session (step_frame (r >>= k)))).
Proof. intros H Hk. destruct r; simpl; [rewrite Hk|]; exact H. Qed.

Lemma keeps_revert_warning btn : keeps_history (stage_revert_warning btn).
Proof. intros f. destruct (stage_revert_warning_cont btn f) as [f' [-> Hs]]. simpl. rewrite Hs. reflexivity. Qed.

Lemma keeps_reset_clear : keeps_history stage_reset_clear.
Proof. intros f. rewrite stage_reset_clear_session. reflexivity. Qed.

Lemma keeps_explain btn c : keeps_history (stage_explain btn c).
Proof.
  intros f. unfold stage_explain. destruct (_ && _); [|reflexivity].
  destruct (c _); reflexivity.
Qed.

Lemma keeps_comparison btn c : keeps_history (stage_comparison btn c).
Proof.
  intros f. unfold stage_comparison. destruct (py_last _); [|reflexivity].
  destruct (_ && _ && _); [|reflexivity]. destruct (button_eqb _ _); [|reflexivity].
  destruct (c _); reflexivity.
Qed.

Lemma keeps_other (st : frame -> step) : (forall f, st f = Continue f) -> keeps_history st.
Proof. intros H f. rewrite H. reflexivity. Qed.

Lemma run_history (s : session) (i : input) (P : list entry -> Prop) :
  P (history (f_session (step_frame
    (Continue (start_frame s i)
     >>= stage_revert_warning (in_button i)
     >>= stage_revert (in_button i)
     >>= stage_clear (in_button i)
     >>= stage_reset_clear
     >>= stage_optimize (in_button i) (in_complete i))))) ->
  P (history (fst (run s i))).
Proof.
  intros H. unfold run. rewrite run_result_fst.
  apply pres_hist; [|apply keeps_comparison].
  apply pres_hist; [exact H|apply keeps_explain].
Qed.

Lemma stage_optimize_history btn c f :
  history (f_session (step_frame (stage_optimize btn c f))) = history (f_session f) \/
  exists e, history (f_session (step_frame (stage_optimize btn c f)))
            = (history (f_session f) ++ [e])%list /\
            str_truthy (py_strip (messy e)) = true.
Proof.
  unfold stage_optimize. destruct (button_eqb btn OptimizeBtn); cbn [andb]; [|left; reflexivity].
  destruct (str_truthy (py_strip (f_messy_code f))) eqn:Eb; [|left; reflexivity].
  destruct (c _); [right|left; reflexivity].
  eexists; split; [reflexivity|exact Eb].
Qed.

Lemma history_step (s : session) (i : input) :
  let h := history s in
  let h' := history (fst (run s i)) in
  h' = h \/
  (in_button i = OptimizeBtn /\
     exists e, h' = (h ++ [e])%list /\ str_truthy (py_strip (messy e)) = true) \/
  (in_button i = RevertBtn /\ 1 < length h /\ h' = removelast h) \/
  (in_button i = ClearBtn /\ h' = []).
Proof.
  cbv zeta. apply run_history.
  rewrite <- (start_frame_history s i). set (f0 := start_frame s i). clearbody f0.
  destruct (in_button i) eqn:Eb;
    cbn [step_bind];
    try (rewrite stage_revert_warning_other by discriminate; cbn [step_bind];
         rewrite stage_revert_other by discriminate; cbn [step_bind]).
  - rewrite stage_clear_other by discriminate. cbn [step_bind].
    rewrite stage_reset_clear_session. cbn [step_bind].
    rewrite stage_optimize_other by discriminate. left. reflexivity.
  - rewrite stage_clear_other by discriminate. cbn [step_bind].
    rewrite stage_reset_clear_session. cbn [step_bind].
    destruct (stage_optimize_history OptimizeBtn (in_complete i)
                (with_session f0 (set_clear_triggered (f_session f0) false))) as [H|[e [H He]]];
      rewrite H; [left; reflexivity|right; left; split; [reflexivity|eauto]].
  - rewrite stage_clear_other by discriminate. cbn [step_bind].
    rewrite stage_reset_clear_session. cbn [step_bind].
    rewrite stage_optimize_other by discriminate. left. reflexivity.
  - destruct (stage_revert_warning_cont RevertBtn f0) as [f1 [-> Hs1]]. cbn [step_bind].
    unfold stage_revert. cbn [button_eqb andb]. rewrite Hs1.
    destruct (1 <? length (history (f_session f0))) eqn:El.
    + apply Nat.ltb_lt in El.
      destruct (py_last _); cbn [step_bind stage_clear button_eqb step_frame];
        [rewrite stage_reset_clear_session; cbn [step_bind];
         rewrite stage_optimize_other by discriminate|];
        right; right; left; cbn; rewrite ?Hs1; auto.
    + cbn [step_bind]. rewrite stage_clear_other by discriminate. cbn [step_bind].
      rewrite stage_reset_clear_session. cbn [step_bind].
      rewrite stage_optimize_other by discriminate. left. cbn. rewrite Hs1. reflexivity.
  - unfold stage_clear. cbn. right. right. right. auto.
  - rewrite stage_clear_other by discriminate. cbn [step_bind].
    rewrite stage_reset_clear_session. cbn [step_bind].
    rewrite stage_optimize_other by discriminate. left. reflexivity.
Qed.

(** X7: a run leaves history as it was, except that "Optimize Code"
    may append one entry whose original code is non-blank, "Revert" on
    at least two entries removes the last one, and "Clear All" empties it. *)
Theorem X7_history_step (s : session) (i : input) :
  let h := history s in
  let h' := history (fst (run s i)) in
  h' = h \/
  (in_button i = OptimizeBtn /\
     exists e, h' = (h ++ [e])%list /\ str_truthy (py_strip (messy e)) = true) \/
  (in_button i = RevertBtn /\ 1 < length h /\ h' = removelast h) \/
  (in_button i = ClearBtn /\ h' = []).
Proof. exact (history_step s i). Qed.

Definition entry_nonblank (e : entry) : Prop := str_truthy (py_strip (messy e)) = true.

Lemma Forall_removelast {A} (P : A -> Prop) (l : list A) :
  Forall P l -> Forall P (removelast l).
Proof.
  induction l as [|a l IH]; intros H; [constructor|].
  inversion H; subst. destruct l; [constructor|]. simpl. constructor; auto.
Qed.

Lemma run_nonblank (s : session) (i : input) :
  Forall entry_nonblank (history s) -> Forall entry_nonblank (history (fst (run s i))).
Proof.
  intros H. destruct (history_step s i) as [->|[[_ [e [-> He]]]|[[_ [_ ->]]|[_ ->]]]].
  - exact H.
  - apply Forall_app; split; [exact H|constructor; [exact He|constructor]].
  - apply Forall_removelast. exact H.
  - constructor.
Qed.

Lemma event_fst (s : session) (i : input) :
  fst (event s i) = fst (run s i) \/
  fst (event s i) = fst (run (fst (run s i)) (rerun_input i)).
Proof.
  unfold event. destruct (run s i) as [s1 o1]. simpl.
  destruct (o_outcome o1); try (left; reflexivity).
  right. destruct (run s1 (rerun_input i)). reflexivity.
Qed.

(** X8: every session reachable from the initial one has the clear flag
    down and only history entries whose original code is non-blank. *)
Theorem X8_reachable_invariant (s : session) :
  reachable s ->
  clear_triggered s = false /\ Forall entry_nonblank (history s).
Proof.
  intros Hr. split; [exact (reachable_flag_down s Hr)|].
  induction Hr as [|s i _ IH]; [constructor|].
  destruct (event_fst s i) as [->| ->]; apply run_nonblank; [exact IH|].
  apply run_nonblank. exact IH.
Qed.

Lemma X8_reachable_invariant_witness :
  reachable (fst (event init_session (py_input "x=1" OptimizeBtn "A"))) /\
  clear_triggered (fst (event init_session (py_input "x=1" OptimizeBtn "A"))) = false /\
  Forall entry_nonblank (history (fst (event init_session (py_input "x=1" OptimizeBtn "A")))).
Proof.
  assert (H : reachable (fst (event init_session (py_input "x=1" OptimizeBtn "A"))))
    by (apply reach_event; apply reach_init).
  split; [exact H|]. exact (X8_reachable_invariant _ H).
Defined.

(** ** Failed runs *)

(** Rewrite the stages that a given button does not trigger. *)
Ltac push_run :=
  repeat (cbn [step_bind];
          first [ rewrite stage_revert_warning_other by discriminate
                | rewrite stage_revert_other by discriminate
                | rewrite stage_clear_other by discriminate
                | rewrite stage_reset_clear_session
                | rewrite stage_optimize_other by discriminate
                | rewrite stage_explain_other by discriminate
                | match goal with
                  | |- context [stage_comparison ?b ?c ?f] =>
                      let f' := fresh "f'" in let Hf := fresh "Hf" in
                      let Hr := fresh "Hr" in
                      destruct (stage_comparison_other b c f ltac:(discriminate))
                        as [f' [Hf Hr]];
                      rewrite Hf
                  end ]);
  cbn [step_bind].

Lemma revert_not_failed (s : session) (i : input) :
  in_button i = RevertBtn -> o_outcome (snd (run s i)) <> Failed.
Proof.
  intros Hb. unfold run. rewrite Hb. cbn [step_bind].
  destruct (stage_revert_warning_cont RevertBtn (start_frame s i)) as [f1 [-> _]].
  cbn [step_bind]. destruct (stage_revert_cont RevertBtn f1) as [f2 ->].
  push_run. discriminate.
Qed.

Lemma optimize_failed_history (s : session) (i : input) :
  in_button i = OptimizeBtn -> o_outcome (snd (run s i)) = Failed ->
  history (fst (run s i)) = history s.
Proof.
  intros Hb. unfold run. rewrite Hb. rewrite <- (start_frame_history s i).
  set (f0 := start_frame s i). clearbody f0.
  push_run. unfold stage_optimize. cbn [button_eqb andb].
  match goal with |- context [if str_truthy ?x then _ else _] => destruct (str_truthy x) end;
    [match goal with |- context [in_complete i ?p] => destruct (in_complete i p) end|];
    push_run; cbn; try discriminate.
  intros _. reflexivity.
Qed.

(** X9: a run that ends in an error (a failed completion call) leaves the
    history as it was. *)
Theorem X9_failed_run_keeps_history (s : session) (i : input) :
  o_outcome (snd (run s i)) = Failed -> history (fst (run s i)) = history s.
Proof.
  intros Hf. destruct (in_button i) eqn:Eb.
  - destruct (history_step s i) as [H|[[Hb _]|[[Hb _]|[Hb _]]]]; congruence.
  - exact (optimize_failed_history s i Eb Hf).
  - destruct (history_step s i) as [H|[[Hb _]|[[Hb _]|[Hb _]]]]; congruence.
  - exfalso. exact (revert_not_failed s i Eb Hf).
  - destruct (run_clear s i Eb) as [_ Ho]. congruence.
  - destruct (history_step s i) as [H|[[Hb _]|[[Hb _]|[Hb _]]]]; congruence.
Qed.

Lemma X9_failed_run_keeps_history_witness :
  o_outcome (snd (run init_session
    (mk_input None (Some "x=1") OptimizeBtn None (fun _ => ServiceError)))) = Failed /\
  history (fst (run init_session
    (mk_input None (Some "x=1") OptimizeBtn None (fun _ => ServiceError)))) = history init_session.
Proof.
  assert (Hf : o_outcome (snd (run init_session
    (mk_input None (Some "x=1") OptimizeBtn None (fun _ => ServiceError)))) = Failed)
    by (vm_compute; reflexivity).
  split; [exact Hf|]. exact (X9_failed_run_keeps_history _ _ Hf).
Defined.

(** ** Revert after optimize *)

Lemma revert_history (s : session) (j : input) :
  in_button j = RevertBtn ->
  history (fst (run s j)) =
  if 1 <? length (history s) then removelast (history s) else history s.
Proof.
  intros Hb.
  apply (run_history s j (fun h => h = if 1 <? length (history s)
                                       then removelast (history s) else history s)).
  cbv beta. rewrite <- (start_frame_history s j).
  set (f0 := start_frame s j). clearbody f0. rewrite Hb. cbn [step_bind].
  destruct (stage_revert_warning_cont RevertBtn f0) as [f1 [-> Hs1]]. cbn [step_bind].
  unfold stage_revert. cbn [button_eqb andb]. rewrite Hs1.
  destruct (1 <? length (history (f_session f0))) eqn:El.
  - apply Nat.ltb_lt in El. destruct (py_last_removelast _ El) as [e He].
    rewrite He. push_run. reflexivity.
  - push_run. cbn. rewrite Hs1. reflexivity.
Qed.

(** X10: "Revert" right after a successful "Optimize Code" on non-blank
    code restores the history from before the optimisation, unless that
    history was empty, in which case the new single entry stays. *)
Theorem X10_optimize_then_revert (s : session) (i j : input) :
  in_button i = OptimizeBtn -> in_button j = RevertBtn ->
  str_truthy (py_strip (f_messy_code (start_frame s i))) = true ->
  o_outcome (snd (run s i)) <> Failed ->
  history (fst (run (fst (run s i)) j)) =
  match history s with
  | [] => history (fst (run s i))
  | _ => history s
  end.
Proof.
  intros Hb Hj Hc Hok.
  destruct (optimize_run s (fst (run s i)) i (snd (run s i)) Hb Hc (surjective_pairing _) Hok)
    as [r [_ Hh]].
  rewrite (revert_history _ j Hj), Hh, length_app. cbn [length].
  destruct (history s) as [|e h].
  - reflexivity.
  - replace (1 <? length (e :: h) + 1) with true by (symmetry; apply Nat.ltb_lt; simpl; lia).
    apply removelast_last.
Qed.

Lemma X10_optimize_then_revert_witness :
  history (fst (run (fst (run (fst (event init_session (py_input "x=1" OptimizeBtn "A")))
                                (py_input "y=2" OptimizeBtn "B")))
                    (py_input "y=2" RevertBtn "C")))
  = [mk_entry "x=1" "A" (Some "python")].
Proof.
  assert (Hc : str_truthy (py_strip (f_messy_code
            (start_frame (fst (event init_session (py_input "x=1" OptimizeBtn "A")))
               (py_input "y=2" OptimizeBtn "B"))))
          = true) by (vm_compute; reflexivity).
  assert (Hok : o_outcome (snd (run (fst (event init_session (py_input "x=1" OptimizeBtn "A")))
                                    (py_input "y=2" OptimizeBtn "B"))) <> Failed)
    by (vm_compute; discriminate).
  rewrite (X10_optimize_then_revert _ (py_input "y=2" OptimizeBtn "B") (py_input "y=2" RevertBtn "C")
             eq_refl eq_refl Hc Hok).
  vm_compute. reflexivity.
Defined.

(** ** The download button *)

Lemma frame_pres (Q : frame -> Prop) (r : step) (k : frame -> step) :
  Q (step_frame r) -> (forall f, Q f -> Q (step_frame (k f))) ->
  Q (step_frame (r >>= k)).
Proof. destruct r; simpl; auto. Qed.

Ltac stage_frame_inv :=
  intros f H; repeat (match goal with
                      | |- context [if ?b then _ else _] => destruct b
                      | |- context [match ?x with _ => _ end] => destruct x
                      end; cbn in * ); cbn in *; auto.

Definition download_matches (f : frame) : Prop :=
  f_download f =
  option_map (fun e => ("optimized_code." ++ py_str_lang (language e))%string) (f_comparison f).

Lemma run_output_frame (r : step) :
  snd (match r with Continue f => finish f Finished | Exit f o => finish f o end)
  = snd (finish (step_frame r) (match r with Continue _ => Finished | Exit _ o => o end)).
Proof. destruct r; reflexivity. Qed.

(** X11: the download button, when shown, offers the file name
    "optimized_code." followed by the language of the entry shown in the
    comparison; it is shown exactly when the comparison is. *)
Theorem X11_download_name (s : session) (i : input) :
  o_download (snd (run s i)) =
  option_map (fun e => ("optimized_code." ++ py_str_lang (language e))%string)
    (o_comparison (snd (run s i))).
Proof.
  unfold run. rewrite run_output_frame. cbn [finish snd o_download o_comparison].
  fold (download_matches (step_frame
    (Continue (start_frame s i)
     >>= stage_revert_warning (in_button i)
     >>= stage_revert (in_button i)
     >>= stage_clear (in_button i)
     >>= stage_reset_clear
     >>= stage_optimize (in_button i) (in_complete i)
     >>= stage_explain (in_button i) (in_complete i)
     >>= stage_comparison (in_button i) (in_complete i)))).
  repeat apply frame_pres; try reflexivity; unfold download_matches in *.
  - unfold stage_revert_warning. stage_frame_inv.
  - unfold stage_revert. stage_frame_inv.
  - unfold stage_clear. stage_frame_inv.
  - unfold stage_reset_clear. stage_frame_inv.
  - unfold stage_optimize. stage_frame_inv.
  - unfold stage_explain. stage_frame_inv.
  - unfold stage_comparison. stage_frame_inv.
Qed.

(** ** "Explain Optimized Code" *)

(** X12: a click on "Explain Optimized Code" keeps the history, and the
    run makes exactly one completion call, on the cleaned code and
    language of the entry shown in the comparison, when the comparison is
    shown, and none otherwise. *)
Theorem X12_explain_optimized_calls (s : session) (i : input) :
  in_button i = ExplainOptimizedBtn ->
  history (fst (run s i)) = history s /\
  o_calls (snd (run s i)) =
  match o_comparison (snd (run s i)) with
  | Some e => [explain_prompt (cleaned e) (language e)]
  | None => []
  end.
Proof.
  intros Hb. unfold run. rewrite Hb. rewrite <- (start_frame_history s i).
  assert (Hc0 : f_calls (start_frame s i) = []) by reflexivity.
  assert (Hm0 : f_comparison (start_frame s i) = None) by reflexivity.
  set (f0 := start_frame s i) in *. clearbody f0.
  push_run. unfold stage_comparison.
  cbn [f_session with_session set_clear_triggered history].
  destruct (py_last (history (f_session f0))) as [last|];
    [destruct (_ && _ && _);
     [cbn [button_eqb];
      match goal with |- context [in_complete i ?p] => destruct (in_complete i p) end|]|];
    cbn; rewrite ?Hc0, ?Hm0; split; reflexivity.
Qed.

Lemma X12_explain_optimized_calls_witness :
  o_calls (snd (run (fst (event init_session (py_input "x=1" OptimizeBtn "A")))
                    (py_input "x=1" ExplainOptimizedBtn "E")))
  = [explain_prompt "A" (Some "python")].
Proof.
  destruct (X12_explain_optimized_calls (fst (event init_session (py_input "x=1" OptimizeBtn "A")))
              (py_input "x=1" ExplainOptimizedBtn "E") eq_refl) as [_ ->].
  vm_compute. reflexivity.
Defined.

(** ** Runs without a button *)



(** ** A successful explanation *)

(** X15: "Explain Code" on non-blank code whose completion call succeeds
    makes exactly that one call, on the code and detected language, shows
    its text as the explanation, shows no comparison, and stops the run. *)
Theorem X15_explain_success (s : session) (i : input) (t : string) :
  in_button i = ExplainBtn ->
  str_truthy (py_strip (f_messy_code (start_frame s i))) = true ->
  in_complete i (explain_prompt (f_messy_code (start_frame s i))
                   (f_detected_language (start_frame s i))) = Completion t ->
  o_calls (snd (run s i)) =
    [explain_prompt (f_messy_code (start_frame s i)) (f_detected_language (start_frame s i))] /\
  o_explanation (snd (run s i)) = Some t /\
  o_comparison (snd (run s i)) = None /\
  o_outcome (snd (run s i)) = Stopped.
Proof.
  intros Hb Hc Ht. unfold run. rewrite Hb.
  assert (Hc0 : f_calls (start_frame s i) = []) by reflexivity.
  assert (Hm0 : f_comparison (start_frame s i) = None) by reflexivity.
  set (f0 := start_frame s i) in *. clearbody f0.
  push_run. unfold stage_explain. cbn [button_eqb andb f_messy_code f_detected_language with_session].
  rewrite Hc. cbn [andb f_messy_code f_detected_language with_session]. rewrite Ht.
  cbn. rewrite Hc0, Hm0. repeat split; reflexivity.
Qed.

Lemma X15_explain_success_witness :
  o_explanation (snd (run init_session (py_input "x=1" ExplainBtn "It sets x."))) =
  Some "It sets x.".
Proof.
  assert (Hc : str_truthy (py_strip (f_messy_code
                 (start_frame init_session (py_input "x=1" ExplainBtn "It sets x."))))
               = true) by (vm_compute; reflexivity).
  exact (proj1 (proj2 (X15_explain_success init_session
           (py_input "x=1" ExplainBtn "It sets x.") "It sets x." eq_refl Hc eq_refl))).
Defined.

(** ** What a successful optimisation shows *)

Lemma py_last_snoc (h : list entry) (e : entry) : py_last (h ++ [e])%list = Some e.
Proof. unfold py_last. rewrite rev_app_distr. reflexivity. Qed.

(** X16: "Optimize Code" on non-blank code whose completion call returns
    [r] makes that one call, shows the code, [r] and the detected language,
    finishes normally, and shows the new entry in the comparison exactly
    when [r] is non-blank. *)
Theorem X16_optimize_output (s : session) (i : input) (r : string) :
  in_button i = OptimizeBtn ->
  str_truthy (py_strip (f_messy_code (start_frame s i))) = true ->
  in_complete i (optimize_prompt (f_messy_code (start_frame s i))
                   (f_detected_language (start_frame s i))) = Completion r ->
  o_calls (snd (run s i)) =
    [optimize_prompt (f_messy_code (start_frame s i)) (f_detected_language (start_frame s i))] /\
  o_view (snd (run s i)) =
    (f_messy_code (start_frame s i), Some r, f_detected_language (start_frame s i)) /\
  o_outcome (snd (run s i)) = Finished /\
  o_comparison (snd (run s i)) =
    (if str_truthy (py_strip r)
     then Some (mk_entry (f_messy_code (start_frame s i)) r (f_detected_language (start_frame s i)))
     else None).
Proof.
  intros Hb Hc Hr. unfold run. rewrite Hb.
  assert (Hc0 : f_calls (start_frame s i) = []) by reflexivity.
  assert (Hm0 : f_comparison (start_frame s i) = None) by reflexivity.
  set (f0 := start_frame s i) in *. clearbody f0.
  push_run. unfold stage_optimize. cbn [button_eqb andb f_messy_code f_detected_language with_session].
  rewrite Hc. cbn [andb f_messy_code f_detected_language with_session]. rewrite Hr.
  cbn [step_bind]. rewrite stage_explain_other by discriminate. cbn [step_bind].
  unfold stage_comparison.
  cbn [f_session with_session with_view add_call set_show_explanation_only set_history
       set_clear_triggered history show_explanation_only cleaned messy language
       f_messy_code f_detected_language].
  rewrite py_last_snoc. cbn [cleaned messy language]. rewrite Hc.
  destruct (str_truthy (py_strip r)); cbn; rewrite Hc0, ?Hm0; repeat split; reflexivity.
Qed.

Lemma X16_optimize_output_witness :
  o_comparison (snd (run init_session (py_input "x=1" OptimizeBtn " "))) = None.
Proof.
  assert (Hc : str_truthy (py_strip (f_messy_code
                 (start_frame init_session (py_input "x=1" OptimizeBtn " "))))
               = true) by (vm_compute; reflexivity).
  rewrite (proj2 (proj2 (proj2 (X16_optimize_output init_session
             (py_input "x=1" OptimizeBtn " ") " " eq_refl Hc eq_refl)))).
  vm_compute. reflexivity.
Defined.
